(** * StandX maker bot: the decision engine and its configuration loader

    A shallow embedding of [src/core/maker.py] and [src/config.py].

    - [Py]     : the fragments of the Python runtime the two files rely on:
                 exceptions, binary64 floats with Python's [int]/[float]
                 arithmetic, [math.floor]/[math.ceil], fixed-point
                 formatting, and dynamically typed values (YAML / JSON).
    - [config] : [WalletConfig], [Config], [Config.from_dict].
    - [state]  : [core/state.py], which the repository imports but which is
                 not among the sources; modelled from the specification.
    - [maker]  : [send_notify] and the [Maker] tick pipeline, written in a
                 state-and-exception monad over a world that holds the
                 engine's [State] and the trace of calls that left the
                 process. *)

From Stdlib Require Import ZArith Lia Bool List String Ascii.
From Stdlib Require Import Floats.SpecFloat.
From Stdlib Require Import Numbers.DecimalString.
From stdpp Require Import base option list strings gmap.

Local Open Scope string_scope.
Local Open Scope Z_scope.

(* ===================================================================== *)
(** ** Python runtime fragments *)
(* ===================================================================== *)

Module Py.

(** An instance of Python's [Exception]: its class name and [str(e)]. *)
Record exn : Type := Exception { exn_class : string; exn_str : string }.

(** [KeyError(key)]: [str(e)] is the [repr] of the key, which for a key
    made of letters, digits and underscores is the key in single quotes. *)
Definition KeyError (key : string) : exn :=
  Exception "KeyError" ("'" +:+ key +:+ "'").
Definition ValueError (msg : string) : exn := Exception "ValueError" msg.
Definition TypeError (msg : string) : exn := Exception "TypeError" msg.
Definition AttributeError (msg : string) : exn :=
  Exception "AttributeError" msg.
Definition OverflowError (msg : string) : exn :=
  Exception "OverflowError" msg.

(** Outcome of evaluating an expression that may raise. *)
Inductive result (A : Type) : Type :=
| Ok (a : A)
| Raise (e : exn).
Arguments Ok {A} a.
Arguments Raise {A} e.

Definition rbind {A B} (r : result A) (k : A -> result B) : result B :=
  match r with
  | Ok a => k a
  | Raise e => Raise e
  end.

Definition raised {A} (r : result A) : bool :=
  match r with Ok _ => false | Raise _ => true end.

(** *** [float]: IEEE 754 binary64 *)

Definition float : Type := spec_float.
Definition prec : Z := 53.
Definition emax : Z := 1024.

Definition fadd : float -> float -> float := SFadd prec emax.
Definition fsub : float -> float -> float := SFsub prec emax.
Definition fmul : float -> float -> float := SFmul prec emax.
Definition fdiv : float -> float -> float := SFdiv prec emax.
Definition fabs : float -> float := SFabs.

(** [x >= y] and [x > y] on floats; every comparison with NaN is false. *)
Definition fge (x y : float) : bool := SFleb y x.
Definition fgt (x y : float) : bool := SFltb y x.
Definition flt (x y : float) : bool := SFltb x y.

(** The integer as a pair sign / magnitude with exponent 0.  Not a
    canonical binary64 in general: only fed to the rounding operations. *)
Definition int_unrounded (z : Z) : float :=
  match z with
  | Z0 => S754_zero false
  | Zpos p => S754_finite false p 0
  | Zneg p => S754_finite true p 0
  end.

Definition is_infinity (x : float) : bool :=
  match x with S754_infinity _ => true | _ => false end.

(** [float(z)]: round to nearest even, [OverflowError] beyond the range. *)
Definition float_of_int (z : Z) : result float :=
  let x := binary_normalize prec emax z 0 false in
  if is_infinity x
  then Raise (OverflowError "int too large to convert to float")
  else Ok x.

(** [a / b] on two [int]s: the correctly rounded quotient. *)
Definition int_truediv (a b : Z) : result float :=
  if b =? 0 then Raise (Exception "ZeroDivisionError" "division by zero")
  else
    let q := fdiv (int_unrounded a) (int_unrounded b) in
    if is_infinity q
    then Raise (OverflowError "integer division result too large for a float")
    else Ok q.

(** Exact value of a finite float as a fraction [num / den], [den > 0]. *)
Definition exact_fraction (s : bool) (m : positive) (e : Z) : Z * Z :=
  let n := cond_Zopp s (Zpos m) in
  match e with
  | Zneg k => (n, 2 ^ Zpos k)
  | _ => (n * 2 ^ e, 1)
  end.

Definition nan_to_int {A} : result A :=
  Raise (ValueError "cannot convert float NaN to integer").
Definition inf_to_int {A} : result A :=
  Raise (OverflowError "cannot convert float infinity to integer").

(** [math.floor(x)] and [math.ceil(x)]: an exact [int], or an exception. *)
Definition math_floor (x : float) : result Z :=
  match x with
  | S754_nan => nan_to_int
  | S754_infinity _ => inf_to_int
  | S754_zero _ => Ok 0
  | S754_finite s m e => let '(n, d) := exact_fraction s m e in Ok (n / d)
  end.

Definition math_ceil (x : float) : result Z :=
  match x with
  | S754_nan => nan_to_int
  | S754_infinity _ => inf_to_int
  | S754_zero _ => Ok 0
  | S754_finite s m e =>
      let '(n, d) := exact_fraction s m e in Ok (- ((- n) / d))
  end.

(** [z * x] with [z : int], [x : float]: the int is converted first. *)
Definition int_mul_float (z : Z) (x : float) : result float :=
  rbind (float_of_int z) (fun fz => Ok (fmul fz x)).

(** [x > z] with [x : float], [z : int]: Python compares the exact values. *)
Definition float_gt_int (x : float) (z : Z) : bool :=
  match x with
  | S754_nan => false
  | S754_infinity s => negb s
  | S754_zero _ => z <? 0
  | S754_finite s m e => let '(n, d) := exact_fraction s m e in z * d <? n
  end.
Definition float_lt_int (x : float) (z : Z) : bool :=
  match x with
  | S754_nan => false
  | S754_infinity s => s
  | S754_zero _ => 0 <? z
  | S754_finite s m e => let '(n, d) := exact_fraction s m e in n <? z * d
  end.

(** [x == z] with [x : float], [z : int], again on the exact values. *)
Definition float_eq_int (x : float) (z : Z) : bool :=
  match x with
  | S754_zero _ => z =? 0
  | S754_finite s m e => let '(n, d) := exact_fraction s m e in n =? z * d
  | _ => false
  end.

(** *** [format(x, ".<d>f")] *)

Definition str_nat (n : N) : string :=
  NilZero.string_of_uint (N.to_uint n).

(** The digits of [n] left-padded with zeros to width [d] ([n < 10^d]). *)
Definition str_padded (d : N) (n : N) : string :=
  match str_nat (10 ^ d + n) with
  | String _ rest => rest
  | EmptyString => EmptyString
  end.

(** [n / d] rounded to the nearest integer, ties to even ([n >= 0 < d]). *)
Definition round_half_even (n d : Z) : Z :=
  let q := n / d in
  let r := n mod d in
  match 2 * r ?= d with
  | Lt => q
  | Gt => q + 1
  | Eq => if Z.even q then q else q + 1
  end.

Definition format_fixed (decimals : N) (x : float) : string :=
  match x with
  | S754_nan => "nan"
  | S754_infinity s => if s then "-inf" else "inf"
  | S754_zero s =>
      (if s then "-" else "") +:+ "0" +:+
      (if (decimals =? 0)%N then "" else "." +:+ str_padded decimals 0)
  | S754_finite s m e =>
      let '(n, d) := exact_fraction false m e in
      let scale := 10 ^ Z.of_N decimals in
      let r := Z.to_N (round_half_even (n * scale) d) in
      (if s then "-" else "") +:+
      str_nat (r / Z.to_N scale) +:+
      (if (decimals =? 0)%N then ""
       else "." +:+ str_padded decimals (r mod Z.to_N scale))
  end.

(** *** Dynamically typed values (what YAML and JSON decoding produce) *)

#[local] Set Warnings "-register-all".
Inductive value : Type :=
| VNone
| VBool (b : bool)
| VInt (z : Z)
| VFloat (x : float)
| VStr (s : string)
| VList (l : list value)
| VDict (d : gmap string value).

(** A Python [dict] with string keys. *)
Abbreviation dict := (gmap string value).

(** [type(v).__name__] *)
Definition type_name (v : value) : string :=
  match v with
  | VNone => "NoneType"
  | VBool _ => "bool"
  | VInt _ => "int"
  | VFloat _ => "float"
  | VStr _ => "str"
  | VList _ => "list"
  | VDict _ => "dict"
  end.

(** [d[key]] *)
Definition getitem (d : dict) (key : string) : result value :=
  match d !! key with
  | Some v => Ok v
  | None => Raise (KeyError key)
  end.

(** [d.get(key, default)] on a dict *)
Definition dict_get (d : dict) (key : string) (default : value) : value :=
  match d !! key with
  | Some v => v
  | None => default
  end.

(** [s in t] for strings: [s] occurs in [t] as a substring. *)
Fixpoint str_contains (s t : string) : bool :=
  String.prefix s t ||
  match t with
  | EmptyString => false
  | String _ t' => str_contains s t'
  end.

(** [key in v] for a string [key]: key membership in a dict, substring
    test in a string, element membership in a list (a [str] is equal to
    no value of another type); other values are not containers. *)
Definition contains (key : string) (v : value) : result bool :=
  match v with
  | VDict d => Ok (match d !! key with Some _ => true | None => false end)
  | VStr s => Ok (str_contains key s)
  | VList l =>
      Ok (existsb (fun x => match x with
                            | VStr s => String.eqb s key
                            | _ => false
                            end) l)
  | _ =>
      Raise (TypeError
               ("argument of type '" +:+ type_name v +:+ "' is not iterable"))
  end.

(** [v.get(key, default)] on an arbitrary value: only dicts have [get]. *)
Definition attr_get (v : value) (key : string) (default : value)
  : result value :=
  match v with
  | VDict d => Ok (dict_get d key default)
  | _ =>
      Raise (AttributeError
               ("'" +:+ type_name v +:+ "' object has no attribute 'get'"))
  end.

(** [v == 0]: numbers compare by value across [bool], [int] and [float];
    nothing else equals an [int]. *)
Definition eq_zero (v : value) : bool :=
  match v with
  | VInt z => z =? 0
  | VBool b => negb b
  | VFloat (S754_zero _) => true
  | _ => false
  end.

End Py.

(* ===================================================================== *)
(** ** config.py *)
(* ===================================================================== *)

Module config.
Import Py.

#[local] Notation "x <- r ;; k" := (rbind r (fun x => k))
  (at level 100, r at next level, right associativity, only parsing).

(** [WalletConfig]: a dataclass, so the fields hold whatever the loader
    passed in. *)
Record WalletConfig : Type := {
  chain : value;
  private_key : value;
  api_token : value;
  api_secret : value;
}.

(** [Config].  A dataclass does not check its annotations: [from_dict]
    builds it with every field a dynamically typed [value], the engine
    reads the fields at their annotated types ([str], [int], [float]). *)
Record Config {Str Int Float : Type} : Type := {
  wallet : WalletConfig;
  symbol : Str;
  order_distance_bps : Int;
  cancel_distance_bps : Int;
  rebalance_distance_bps : Int;
  order_size_btc : Float;
  max_position_btc : Float;
  volatility_window_sec : Int;
  volatility_threshold_bps : Int;
}.
Arguments Config : clear implicits.

Definition no_credentials : exn :=
  ValueError
    "Either private_key or api_token must be provided in wallet config".

(** [Config.from_dict] *)
Definition from_dict (data : dict) : result (Config value value value) :=
  wallet_data <- getitem data "wallet" ;;
  has_token <- contains "api_token" wallet_data ;;
  (* [and] evaluates its right operand only when the left one is true *)
  neither <- (if negb has_token
              then has_key <- contains "private_key" wallet_data ;;
                   Ok (negb has_key)
              else Ok false) ;;
  if neither : bool then Raise no_credentials
  else
    chain_ <- attr_get wallet_data "chain" (VStr "bsc") ;;
    private_key_ <- attr_get wallet_data "private_key" VNone ;;
    api_token_ <- attr_get wallet_data "api_token" VNone ;;
    api_secret_ <- attr_get wallet_data "api_secret" VNone ;;
    symbol_ <- getitem data "symbol" ;;
    order_distance_bps_ <- getitem data "order_distance_bps" ;;
    cancel_distance_bps_ <- getitem data "cancel_distance_bps" ;;
    let rebalance_distance_bps_ :=
      dict_get data "rebalance_distance_bps" (VInt 20) in
    order_size_btc_ <- getitem data "order_size_btc" ;;
    max_position_btc_ <- getitem data "max_position_btc" ;;
    volatility_window_sec_ <- getitem data "volatility_window_sec" ;;
    volatility_threshold_bps_ <- getitem data "volatility_threshold_bps" ;;
    Ok {| wallet := {| chain := chain_;
                       private_key := private_key_;
                       api_token := api_token_;
                       api_secret := api_secret_ |};
          symbol := symbol_;
          order_distance_bps := order_distance_bps_;
          cancel_distance_bps := cancel_distance_bps_;
          rebalance_distance_bps := rebalance_distance_bps_;
          order_size_btc := order_size_btc_;
          max_position_btc := max_position_btc_;
          volatility_window_sec := volatility_window_sec_;
          volatility_threshold_bps := volatility_threshold_bps_ |}.

(** The fields of the spec's configuration surface other than
    [rebalance_distance_bps], under the names the source gives them. *)
Definition required_fields : list string :=
  ["symbol"; "order_distance_bps"; "cancel_distance_bps"; "order_size_btc";
   "max_position_btc"; "volatility_window_sec"; "volatility_threshold_bps"].

End config.

(* ===================================================================== *)
(** ** core/state.py *)
(* ===================================================================== *)

Module state.
Import Py.

(** The two order sides, the strings ["buy"] and ["sell"] of the source. *)
Inductive Side : Type := buy | sell.

Definition side_str (s : Side) : string :=
  match s with buy => "buy" | sell => "sell" end.

(** Modelled from the spec: the class [OpenOrder] of [core/state.py] is not
    among the sources.  The spec's RestingOrder is (side, client-assigned
    id, price, quantity); the field names are those of the constructor
    calls in [maker.py]. *)
Record OpenOrder : Type := {
  cl_ord_id : string;
  side : Side;
  price : float;
  qty : float;
}.

(** Modelled from the spec: the class [State] of [core/state.py] is not
    among the sources.  The spec's trading state is the position, the last
    price, at most one resting order per side, and the rolling window of
    (timestamp, price) samples in ascending time order. *)
Record State : Type := {
  position : float;
  last_price : option float;
  buy_order : option OpenOrder;
  sell_order : option OpenOrder;
  price_history : list (float * float);
}.

(** Modelled from the spec: the resting-order slot of a side. *)
Definition slot (s : State) (sd : Side) : option OpenOrder :=
  match sd with buy => buy_order s | sell => sell_order s end.

(** Modelled from the spec: [State.set_order] is not among the sources.
    "overwrites the resting-order slot for a side; none clears it". *)
Definition set_order (sd : Side) (o : option OpenOrder) (s : State) : State :=
  match sd with
  | buy => {| position := position s; last_price := last_price s;
              buy_order := o; sell_order := sell_order s;
              price_history := price_history s |}
  | sell => {| position := position s; last_price := last_price s;
               buy_order := buy_order s; sell_order := o;
               price_history := price_history s |}
  end.

(** Modelled from the spec: [State.has_order] is not among the sources.
    "membership test". *)
Definition has_order (sd : Side) (s : State) : bool :=
  match slot s sd with Some _ => true | None => false end.

(** The float [10000.0], the factor of both basis-point formulas. *)
Definition f10000 : float := binary_normalize prec emax 10000 0 false.

(** Modelled from the spec: the distance of a resting order from the last
    price, [|order.price - last_price| / last_price * 10000]. *)
Definition distance_bps (o : OpenOrder) (last : float) : float :=
  fmul (fdiv (fabs (fsub (price o) last)) last) f10000.

(** Modelled from the spec: an order qualifies for cancellation if
    [distance_bps < cancel_distance_bps] or
    [distance_bps > rebalance_distance_bps]. *)
Definition qualifies (cancel_bps rebalance_bps : Z) (last : float)
  (o : OpenOrder) : bool :=
  float_lt_int (distance_bps o last) cancel_bps
  || float_gt_int (distance_bps o last) rebalance_bps.

(** Modelled from the spec: [State.get_orders_to_cancel] is not among the
    sources.  "for each currently resting order ... Returns the list of
    qualifying orders; does not mutate state". *)
Definition get_orders_to_cancel (cancel_bps rebalance_bps : Z) (s : State)
  : list OpenOrder :=
  match last_price s with
  | None => []
  | Some last =>
      filter (fun o => qualifies cancel_bps rebalance_bps last o = true)
        (option_list (buy_order s) ++ option_list (sell_order s))%list
  end.

(** Modelled from the spec: the larger and the smaller of two prices, for
    "max_price_in_window" and "min_price_in_window". *)
Definition fmax (x y : float) : float := if fgt y x then y else x.
Definition fmin (x y : float) : float := if flt y x then y else x.

(** Modelled from the spec: [State.get_volatility_bps] is not among the
    sources.  "returns 0 if fewer than 2 samples remain in the window;
    otherwise returns (max - min) / reference_price * 10000, where
    reference_price is the most recent sample's price". *)
Definition get_volatility_bps (s : State) : float :=
  match map snd (price_history s) with
  | [] | [_] => S754_zero false
  | p :: ps =>
      let hi := fold_left fmax ps p in
      let lo := fold_left fmin ps p in
      fmul (fdiv (fsub hi lo) (List.last ps p)) f10000
  end.

End state.

(* ===================================================================== *)
(** ** The quote prices in exact arithmetic *)
(* ===================================================================== *)

Module stated.
Import Py state.

(** Modelled from the spec: the target price "last_price × (1 −
    order_distance_bps/10000) for buy or last_price × (1 +
    order_distance_bps/10000) for sell", aligned to the instrument's
    minimum price increment "by rounding down for buy and up for sell",
    taken as the numbers the formula names, with nothing rounded on the
    way.  The tick is one over [per_unit] (100 for a tick of 0.01, 10 for a
    tick of 0.1); the result is the price counted in ticks. *)
Definition stated_ticks (sd : Side) (last : float) (bps per_unit : Z)
  : option Z :=
  let ticks (n d : Z) :=
    let num :=
      n * match sd with buy => 10000 - bps | sell => 10000 + bps end
      * per_unit in
    let den := d * 10000 in
    match sd with
    | buy => num / den
    | sell => - ((- num) / den)
    end in
  match last with
  | S754_zero _ => Some 0
  | S754_finite s m e =>
      let '(n, d) := exact_fraction s m e in Some (ticks n d)
  | S754_infinity _ | S754_nan => None
  end.

(** A count [k >= 0] of ticks of [10 ^ -decimals] written as a price. *)
Definition ticks_str (decimals : N) (k : Z) : string :=
  let scale := (10 ^ decimals)%N in
  str_nat (Z.to_N k / scale) +:+ "." +:+
  str_padded decimals (Z.to_N k mod scale).

(** The stated price of a side, as it would be printed. *)
Definition stated_price (sd : Side) (last : float) (bps per_unit : Z)
  (decimals : N) : option string :=
  option_map (ticks_str decimals) (stated_ticks sd last bps per_unit).

End stated.

(* ===================================================================== *)
(** ** core/maker.py *)
(* ===================================================================== *)

Module maker.
Import Py config state.

(** *** The world outside the engine *)

(** What leaves the process, in the order it happens: the two gateway calls
    of [StandXHTTPClient], every call of [send_notify] (the alert sink of
    the spec, recorded with its three arguments), and the HTTP request that
    [send_notify] makes when a notification URL is configured.  Calls of
    [logger] only write to the process log and are not recorded. *)
Inductive Event : Type :=
| cancel_order_call (cl_ord_id : string)
| new_order_call (symbol side qty price cl_ord_id : string)
| send_notify_call (title message priority : string)
| requests_post_call (url : string) (json headers : list (string * string))
    (timeout : Z).

(** [api.http_client.StandXHTTPClient], as far as the engine uses it.  The
    class is an I/O wrapper around the exchange: each method is given by
    its outcome as a function of everything that happened before the call
    and of its arguments.  A failure is an [Exception] raised by the
    transport. *)
Record StandXHTTPClient : Type := {
  cancel_order : list Event -> string -> result unit;
  new_order :
    list Event -> string -> string -> string -> string -> string ->
    result value;
}.

(** The rest of the process environment: [os.environ], [requests.post]
    (only whether it raises matters, the response is dropped), the random
    source behind [uuid.uuid4().hex], and [str()] of a decoded value that
    is not itself a string. *)
Record Runtime : Type := {
  environ : gmap string string;
  requests_post :
    list Event -> string -> list (string * string) ->
    list (string * string) -> Z -> result unit;
  uuid4_hex : nat -> string;
  str_value : value -> string;
}.

(** The mutable part: [self.state], the trace, and how many UUIDs were
    drawn. *)
Record World : Type := {
  self_state : State;
  trace : list Event;
  uuid_calls : nat;
}.

(** *** State-and-exception monad *)

Definition M (A : Type) : Type := World -> result A * World.

Definition ret {A} (a : A) : M A := fun w => (Ok a, w).

Definition bind {A B} (m : M A) (k : A -> M B) : M B :=
  fun w =>
    match m w with
    | (Ok a, w') => k a w'
    | (Raise e, w') => (Raise e, w')
    end.

Notation "x <- m ;; k" := (bind m (fun x => k))
  (at level 100, m at next level, right associativity, only parsing).
Notation "m1 ;; m2" := (bind m1 (fun _ => m2))
  (at level 100, right associativity, only parsing).

(** Evaluate a pure expression, which may raise. *)
Definition eval {A} (r : result A) : M A := fun w => (r, w).

(** [try: body  except Exception as e: handler(e)] *)
Definition try_except {A} (body : M A) (handler : exn -> M A) : M A :=
  fun w =>
    match body w with
    | (Ok a, w') => (Ok a, w')
    | (Raise e, w') => handler e w'
    end.

(** [for x in xs: body(x)] *)
Fixpoint for_each {A} (xs : list A) (body : A -> M unit) : M unit :=
  match xs with
  | [] => ret tt
  | x :: rest => body x ;; for_each rest body
  end.

Definition get_state : M State := fun w => (Ok (self_state w), w).

Definition update_state (f : State -> State) : M unit :=
  fun w => (Ok tt, {| self_state := f (self_state w);
                      trace := trace w;
                      uuid_calls := uuid_calls w |}).

(** Record [ev] and obtain the outcome the environment gives to it. *)
Definition call {A} (ev : Event) (outcome : list Event -> result A) : M A :=
  fun w => (outcome (trace w),
            {| self_state := self_state w;
               trace := trace w ++ [ev];
               uuid_calls := uuid_calls w |}).

Definition emit (ev : Event) : M unit := call ev (fun _ => Ok tt).

Section Engine.

Variable rt : Runtime.

(** [uuid.uuid4().hex] *)
Definition uuid4 : M string :=
  fun w => (Ok (uuid4_hex rt (uuid_calls w)),
            {| self_state := self_state w;
               trace := trace w;
               uuid_calls := S (uuid_calls w) |}).

(** [os.environ.get(name, "")] *)
Definition environ_get (name : string) : string :=
  match environ rt !! name with Some v => v | None => "" end.

(** [str(v)] as an f-string inserts it: a string stands for itself. *)
Definition str_ (v : value) : string :=
  match v with
  | VStr s => s
  | _ => str_value rt v
  end.

(** [send_notify] *)
Definition send_notify (title message priority : string) : M unit :=
  emit (send_notify_call title message priority) ;;
  let notify_url := environ_get "NOTIFY_URL" in
  let notify_api_key := environ_get "NOTIFY_API_KEY" in
  if String.eqb notify_url "" then ret tt
  else
    try_except
      (let headers :=
         if String.eqb notify_api_key "" then []
         else [("X-API-Key", notify_api_key)] in
       let json := [("title", title); ("message", message);
                    ("channel", "alert"); ("priority", priority)] in
       call (requests_post_call notify_url json headers 5)
            (fun h => requests_post rt h notify_url json headers 5))
      (fun _ => ret tt).

(** [Maker]: [self.config] and [self.client]; [self.state] is the world's
    [self_state]. *)
Record Maker : Type := {
  config : Config string Z float;
  client : StandXHTTPClient;
}.

Variable self : Maker.

(** The float literals [0.01] and [0.1]. *)
Definition float_0_01 : float := S754_finite false 5764607523034235 (-59).
Definition float_0_1 : float := S754_finite false 7205759403792794 (-56).

(** Lines 207-213: [tick_size] and [price_decimals] for a symbol. *)
Definition tick_size (symbol_ : string) : float :=
  if String.prefix "BTC" symbol_ then float_0_01 else float_0_1.
Definition price_decimals (symbol_ : string) : N :=
  if String.prefix "BTC" symbol_ then 2%N else 1%N.

(** Lines 215-219: align the price to the tick, floor for buy, ceil for
    sell. *)
Definition align (sd : Side) (price_ : float) (tick : float) : result float :=
  match sd with
  | buy => rbind (math_floor (fdiv price_ tick))
                 (fun n => int_mul_float n tick)
  | sell => rbind (math_ceil (fdiv price_ tick))
                  (fun n => int_mul_float n tick)
  end.

(** [Maker._place_order] *)
Definition _place_order (sd : Side) (price_ : float) : M unit :=
  hex <- uuid4 ;;
  let cl_ord_id_ := "mm-" +:+ side_str sd +:+ "-" +:+ substring 0 8 hex in
  let tick := tick_size (symbol (config self)) in
  let decimals := price_decimals (symbol (config self)) in
  aligned_price <- eval (align sd price_ tick) ;;
  let price_str := format_fixed decimals aligned_price in
  let qty_str := format_fixed 3 (order_size_btc (config self)) in
  try_except
    (response <- call (new_order_call (symbol (config self)) (side_str sd)
                         qty_str price_str cl_ord_id_)
                      (fun h => new_order (client self) h
                                  (symbol (config self)) (side_str sd)
                                  qty_str price_str cl_ord_id_) ;;
     code <- eval (attr_get response "code" VNone) ;;
     if eq_zero code then
       update_state (set_order sd (Some {| cl_ord_id := cl_ord_id_;
                                           side := sd;
                                           price := price_;
                                           qty := order_size_btc (config self) |}))
     else
       error_msg <- eval (attr_get response "message"
                            (VStr (str_value rt response))) ;;
       send_notify "StandX 下单失败"
         (symbol (config self) +:+ " " +:+ side_str sd +:+ " 下单失败: "
          +:+ str_ error_msg)
         "high")
    (fun e =>
       send_notify "StandX 下单异常"
         (symbol (config self) +:+ " " +:+ side_str sd +:+ " 下单异常: "
          +:+ exn_str e)
         "high").

(** The float [1.0], what the int literal [1] becomes next to a float. *)
Definition float_1 : float := binary_normalize prec emax 1 0 false.

(** [Maker._place_missing_orders] *)
Definition _place_missing_orders : M unit :=
  s <- get_state ;;
  match last_price s with
  | None => ret tt
  | Some last =>
      q_buy <- eval (int_truediv (order_distance_bps (config self)) 10000) ;;
      let buy_price := fmul last (fsub float_1 q_buy) in
      q_sell <- eval (int_truediv (order_distance_bps (config self)) 10000) ;;
      let sell_price := fmul last (fadd float_1 q_sell) in
      s1 <- get_state ;;
      (if negb (has_order buy s1) then _place_order buy buy_price
       else ret tt) ;;
      s2 <- get_state ;;
      if negb (has_order sell s2) then _place_order sell sell_price
      else ret tt
  end.

(** Lines 157-168: the body of the cancel loop. *)
Definition cancel_one (order : OpenOrder) : M unit :=
  try_except
    (call (cancel_order_call (cl_ord_id order))
          (fun h => cancel_order (client self) h (cl_ord_id order)) ;;
     update_state (set_order (side order) None))
    (fun e =>
       send_notify "StandX 撤单失败"
         (symbol (config self) +:+ " 撤单失败: " +:+ exn_str e)
         "high").

(** [Maker._tick] *)
Definition _tick : M unit :=
  s <- get_state ;;
  match last_price s with
  | None => ret tt
  | Some _ =>
      if fge (fabs (position s)) (max_position_btc (config self)) then ret tt
      else
        s' <- get_state ;;
        let orders_to_cancel :=
          get_orders_to_cancel (cancel_distance_bps (config self))
            (rebalance_distance_bps (config self)) s' in
        match orders_to_cancel with
        | _ :: _ => for_each orders_to_cancel cancel_one ;; ret tt
        | [] =>
            s'' <- get_state ;;
            let volatility := get_volatility_bps s'' in
            if float_gt_int volatility (volatility_threshold_bps (config self))
            then ret tt
            else _place_missing_orders
        end
  end.

End Engine.

(** *** Reading a trace *)

(** The client ids of the cancellations requested, in order. *)
Fixpoint cancelled_ids (evs : list Event) : list string :=
  match evs with
  | [] => []
  | cancel_order_call id :: rest => id :: cancelled_ids rest
  | _ :: rest => cancelled_ids rest
  end.

(** The orders submitted, in order, as (side, price). *)
Fixpoint submitted (evs : list Event) : list (string * string) :=
  match evs with
  | [] => []
  | new_order_call _ sd _ px _ :: rest => (sd, px) :: submitted rest
  | _ :: rest => submitted rest
  end.

(** The alerts raised with priority ["high"], as (title, message). *)
Fixpoint high_alerts (evs : list Event) : list (string * string) :=
  match evs with
  | [] => []
  | send_notify_call title message priority :: rest =>
      if String.eqb priority "high"
      then (title, message) :: high_alerts rest
      else high_alerts rest
  | _ :: rest => high_alerts rest
  end.

(** The gateway's answer to [new_order] is an acceptance when it is a
    response whose ["code"] equals 0 (section 6 of the spec). *)
Definition accepted (reply : result value) : bool :=
  match reply with
  | Ok (VDict d) => eq_zero (dict_get d "code" VNone)
  | _ => false
  end.

(** The client id [_place_order] generates in world [w]. *)
Definition client_id (rt : Runtime) (sd : Side) (w : World) : string :=
  "mm-" +:+ side_str sd +:+ "-" +:+ substring 0 8 (uuid4_hex rt (uuid_calls w)).

(** The gateway call [_place_order] makes for an aligned price, and the
    gateway's answer to it in world [w]. *)
Definition placement (self : Maker) (sd : Side) (aligned : float)
  (id : string) : Event :=
  new_order_call (symbol (config self)) (side_str sd)
    (format_fixed 3 (order_size_btc (config self)))
    (format_fixed (price_decimals (symbol (config self))) aligned) id.

Definition placement_reply (self : Maker) (sd : Side) (aligned : float)
  (id : string) (w : World) : result value :=
  new_order (client self) (trace w) (symbol (config self)) (side_str sd)
    (format_fixed 3 (order_size_btc (config self)))
    (format_fixed (price_decimals (symbol (config self))) aligned) id.

End maker.

(* ===================================================================== *)
(** ** Concrete scenarios *)
(* ===================================================================== *)

(** Worlds on which the properties below are exercised: the scenarios of
    section 8 of the spec and small variations of them. *)
Module scenario.
Import Py config state maker.

Definition float_of_Z (z : Z) : float := binary_normalize prec emax z 0 false.

(** [50000.0], [0.5], [0.001], and the two prices of scenario D. *)
Definition float_50000 : float := float_of_Z 50000.
Definition float_0_5 : float := S754_finite false 4503599627370496 (-53).
Definition float_0_001 : float := S754_finite false 4611686018427388 (-62).
Definition float_49950 : float := S754_finite false 6865075725926400 (-37).
Definition float_50050 : float := S754_finite false 6878819621273600 (-37).

(** No notification URL, a fixed UUID source. *)
Definition quiet : Runtime :=
  {| environ := ∅;
     requests_post := fun _ _ _ _ _ => Ok tt;
     uuid4_hex := fun n => "0123456789abcdef0123456789abcdef";
     str_value := fun _ => "{...}" |}.

(** A notification URL whose transport always fails. *)
Definition unreachable : Runtime :=
  {| environ := <["NOTIFY_URL" := "https://notify.invalid/send"]> ∅;
     requests_post := fun _ _ _ _ _ =>
       Raise (Exception "ConnectionError" "connection refused");
     uuid4_hex := fun n => "0123456789abcdef0123456789abcdef";
     str_value := fun _ => "{...}" |}.

(** An exchange that accepts everything, one that rejects every order with
    code 1 and fails every cancellation, and one whose transport is down. *)
Definition accepting : StandXHTTPClient :=
  {| cancel_order := fun _ _ => Ok tt;
     new_order := fun _ _ _ _ _ _ => Ok (VDict (<["code" := VInt 0]> ∅)) |}.

Definition rejecting : StandXHTTPClient :=
  {| cancel_order := fun _ _ => Raise (Exception "HTTPError" "500");
     new_order := fun _ _ _ _ _ _ =>
       Ok (VDict (<["code" := VInt 1]>
                    (<["message" := VStr "invalid price"]> ∅))) |}.

Definition offline : StandXHTTPClient :=
  {| cancel_order := fun _ _ => Raise (Exception "TimeoutError" "timed out");
     new_order := fun _ _ _ _ _ _ =>
       Raise (Exception "TimeoutError" "timed out") |}.

Definition btc_config (threshold : Z) : Config string Z float :=
  {| wallet := {| chain := VStr "bsc"; private_key := VNone;
                  api_token := VStr "token"; api_secret := VNone |};
     symbol := "BTC-USD";
     order_distance_bps := 10;
     cancel_distance_bps := 5;
     rebalance_distance_bps := 20;
     order_size_btc := float_0_01;
     max_position_btc := float_0_5;
     volatility_window_sec := 60;
     volatility_threshold_bps := threshold |}.

Definition engine_with (threshold : Z) (c : StandXHTTPClient) : Maker :=
  {| config := btc_config threshold; client := c |}.

Definition engine (c : StandXHTTPClient) : Maker := engine_with 5 c.

Definition world_of (s : State) : World :=
  {| self_state := s; trace := []; uuid_calls := 0 |}.

(** Scenario D: no resting order, last price 50000, no price history. *)
Definition flat : State :=
  {| position := S754_zero false;
     last_price := Some float_50000;
     buy_order := None; sell_order := None;
     price_history := [] |}.

(** Scenario C: the position sits on the limit. *)
Definition at_limit : State :=
  {| position := float_0_5;
     last_price := Some float_50000;
     buy_order := None; sell_order := None;
     price_history := [] |}.

(** A buy order resting 2 bps under the last price and a sell order resting
    30 bps above it: both qualify for cancellation. *)
Definition stale_buy : OpenOrder :=
  {| cl_ord_id := "mm-buy-aaaaaaaa"; side := buy;
     price := float_of_Z 49990; qty := float_0_01 |}.
Definition stale_sell : OpenOrder :=
  {| cl_ord_id := "mm-sell-bbbbbbbb"; side := sell;
     price := float_of_Z 50150; qty := float_0_01 |}.

Definition drifted : State :=
  {| position := S754_zero false;
     last_price := Some float_50000;
     buy_order := Some stale_buy; sell_order := Some stale_sell;
     price_history := [] |}.

(** Two samples, 1.0 then 2.0: the volatility is exactly 5000 bps. *)
Definition swinging : State :=
  {| position := S754_zero false;
     last_price := Some float_50000;
     buy_order := None; sell_order := None;
     price_history := [(float_of_Z 0, float_of_Z 1);
                       (float_of_Z 10, float_of_Z 2)] |}.

(** Last price 50001: the quote targets fall between two ticks. *)
Definition off_tick : State :=
  {| position := S754_zero false;
     last_price := Some (float_of_Z 50001);
     buy_order := None; sell_order := None;
     price_history := [] |}.

(** Scenario A: prices 100 at t=0 and 101 at t=10. *)
Definition scenario_A : State :=
  {| position := S754_zero false;
     last_price := Some (float_of_Z 101);
     buy_order := None; sell_order := None;
     price_history := [(float_of_Z 0, float_of_Z 100);
                       (float_of_Z 10, float_of_Z 101)] |}.

(** Scenario B: last price 100 and a buy order resting at 99.95. *)
Definition float_99_95 : float := S754_finite false 7033355980557517 (-46).
Definition close_buy : OpenOrder :=
  {| cl_ord_id := "mm-buy-cccccccc"; side := buy;
     price := float_99_95; qty := float_0_01 |}.
Definition scenario_B : State :=
  {| position := S754_zero false;
     last_price := Some (float_of_Z 100);
     buy_order := Some close_buy; sell_order := None;
     price_history := [] |}.

(** A complete configuration file without [rebalance_distance_bps]. *)
Definition yaml_wallet : dict :=
  <["chain" := VStr "bsc"]> (<["private_key" := VStr "0xabc"]> ∅).

Definition yaml : dict :=
  <["wallet" := VDict yaml_wallet]>
  (<["symbol" := VStr "BTC-USD"]>
  (<["order_distance_bps" := VInt 10]>
  (<["cancel_distance_bps" := VInt 5]>
  (<["order_size_btc" := VFloat float_0_01]>
  (<["max_position_btc" := VFloat float_0_5]>
  (<["volatility_window_sec" := VInt 60]>
  (<["volatility_threshold_bps" := VInt 5]> ∅))))))).

End scenario.

(* ===================================================================== *)
(** ** core/maker.py: what a tick sends, and start-up *)
(* ===================================================================== *)

Module tick_plan.
Import Py config state maker.

(** The client ids of the orders submitted, in order. *)
Fixpoint placed_ids (evs : list Event) : list string :=
  match evs with
  | [] => []
  | new_order_call _ _ _ _ id :: rest => id :: placed_ids rest
  | _ :: rest => placed_ids rest
  end.

(** The calls of [send_notify], in order, as (title, message, priority). *)
Fixpoint notifications (evs : list Event) : list (string * string * string) :=
  match evs with
  | [] => []
  | send_notify_call title message priority :: rest =>
      (title, message, priority) :: notifications rest
  | _ :: rest => notifications rest
  end.

(** A float that is neither NaN nor an infinity. *)
Definition is_finite (x : float) : bool :=
  match x with
  | S754_zero _ | S754_finite _ _ _ => true
  | S754_infinity _ | S754_nan => false
  end.

(** Two states with the same position, last price and price window: they
    can differ in the order slots only. *)
Definition same_market (s s' : State) : Prop :=
  position s' = position s
  /\ last_price s' = last_price s
  /\ price_history s' = price_history s.

(** An exchange on which every cancellation raises and no order is ever
    accepted, and one on which every cancellation succeeds and every order
    is accepted. *)
Definition always_fails (c : StandXHTTPClient) : Prop :=
  (forall h id, raised (cancel_order c h id) = true)
  /\ (forall h sym sd q px id, accepted (new_order c h sym sd q px id) = false).

Definition always_accepts (c : StandXHTTPClient) : Prop :=
  (forall h id, raised (cancel_order c h id) = false)
  /\ (forall h sym sd q px id, accepted (new_order c h sym sd q px id) = true).

Section Plan.

Variable self : Maker.

(** Lines 191-192 and 215-220 for one side: the price string submitted for
    a last price, or the exception raised before the gateway is asked. *)
Definition quote (sd : Side) (last : float) : result (string * string) :=
  rbind (int_truediv (order_distance_bps (config self)) 10000) (fun q =>
  let target := match sd with
                | buy => fmul last (fsub float_1 q)
                | sell => fmul last (fadd float_1 q)
                end in
  rbind (align sd target (tick_size (symbol (config self)))) (fun aligned =>
  Ok (side_str sd,
      format_fixed (price_decimals (symbol (config self))) aligned))).

(** The (side, price) pairs [_place_missing_orders] submits from a state:
    the buy quote if the buy slot is empty, then the sell quote if the sell
    slot is empty; an exception on the way ends the list. *)
Definition quotes_of (s : State) : list (string * string) :=
  match last_price s with
  | None => []
  | Some last =>
      let sell_part :=
        if has_order sell s then []
        else match quote sell last with
             | Ok q => [q]
             | Raise _ => []
             end in
      match int_truediv (order_distance_bps (config self)) 10000 with
      | Raise _ => []
      | Ok _ =>
          if has_order buy s then sell_part
          else match quote buy last with
               | Ok q => q :: sell_part
               | Raise _ => []
               end
      end
  end.

(** Which of the four steps of [_tick] a state is stopped at. *)
Inductive Step : Type := no_price | position_brake | cancelling | paused | placing.

Definition step_of (s : State) : Step :=
  match last_price s with
  | None => no_price
  | Some _ =>
      if fge (fabs (position s)) (max_position_btc (config self))
      then position_brake
      else match get_orders_to_cancel (cancel_distance_bps (config self))
                   (rebalance_distance_bps (config self)) s with
           | _ :: _ => cancelling
           | [] =>
               if float_gt_int (get_volatility_bps s)
                    (volatility_threshold_bps (config self))
               then paused
               else placing
           end
  end.

(** The cancellations and the orders a tick sends from a state. *)
Definition tick_cancels (s : State) : list string :=
  match step_of s with
  | cancelling =>
      map cl_ord_id
        (get_orders_to_cancel (cancel_distance_bps (config self))
           (rebalance_distance_bps (config self)) s)
  | _ => []
  end.

Definition tick_quotes (s : State) : list (string * string) :=
  match step_of s with
  | placing => quotes_of s
  | _ => []
  end.

End Plan.

End tick_plan.

Module startup.
Import Py config state maker.

(** Modelled from the spec: [State.update_position] is not among the
    sources.  "overwrites position (used only at resync)". *)
Definition update_position (q : float) (s : State) : State :=
  {| position := q; last_price := last_price s;
     buy_order := buy_order s; sell_order := sell_order s;
     price_history := price_history s |}.

(** What [query_positions] and [query_open_orders] hand back, as far as
    [initialize] reads it: the quantity of a position, and the client id,
    side, price and quantity of an open order.  The classes belong to
    [api/http_client.py]; price and quantity go through [float()], so they
    are kept dynamically typed. *)
Record PositionInfo : Type := { position_qty : float }.

Record OrderInfo : Type := {
  order_cl_ord_id : string;
  order_side : string;
  order_price : value;
  order_qty : value;
}.

(** The two read-only methods of [StandXHTTPClient], each given by its
    outcome as a function of what happened before and of the symbol.  They
    change nothing at the exchange and are not recorded in the trace. *)
Record StandXQueries : Type := {
  query_positions : list Event -> string -> result (list PositionInfo);
  query_open_orders : list Event -> string -> result (list OrderInfo);
}.

Section Initialize.

(** [float(s)] on a string: Python's parser for decimal literals. *)
Variable float_of_str : string -> result float.

(** [float(v)] *)
Definition float_ (v : value) : result float :=
  match v with
  | VFloat x => Ok x
  | VInt z => float_of_int z
  | VBool b => Ok (if b then float_1 else S754_zero false)
  | VStr s => float_of_str s
  | _ => Raise (TypeError
                  "float() argument must be a string or a real number")
  end.

Variable self : Maker.
Variable api : StandXQueries.

(** Ask the exchange; the world is left as it is. *)
Definition ask {A} (outcome : list Event -> result A) : M A :=
  fun w => (outcome (trace w), w).

(** Lines 77-82 and 84-89: take an open order into the slot of a side. *)
Definition adopt (sd : Side) (order : OrderInfo) : M unit :=
  price_ <- eval (float_ (order_price order)) ;;
  qty_ <- eval (float_ (order_qty order)) ;;
  update_state (set_order sd (Some {| cl_ord_id := order_cl_ord_id order;
                                      side := sd;
                                      price := price_;
                                      qty := qty_ |})).

(** [Maker.initialize] *)
Definition initialize : M unit :=
  positions <- ask (fun h => query_positions api h (symbol (config self))) ;;
  (match positions with
   | p :: _ => update_state (update_position (position_qty p))
   | [] => update_state (update_position (S754_zero false))
   end) ;;
  orders <- ask (fun h => query_open_orders api h (symbol (config self))) ;;
  for_each orders (fun order =>
    if String.eqb (order_side order) "buy" then adopt buy order
    else if String.eqb (order_side order) "sell" then adopt sell order
    else ret tt).

(** The order [initialize] leaves in the slot of a side after reading a
    list of open orders: the last one of that side, converted. *)
Definition last_of_side (sd : Side) (orders : list OrderInfo)
  : option OrderInfo :=
  List.find (fun o => String.eqb (order_side o) (side_str sd)) (rev orders).

Definition adopted (sd : Side) (o : OrderInfo) : option OpenOrder :=
  match float_ (order_price o), float_ (order_qty o) with
  | Ok p, Ok q => Some {| cl_ord_id := order_cl_ord_id o; side := sd;
                          price := p; qty := q |}
  | _, _ => None
  end.

End Initialize.

End startup.

(* ===================================================================== *)
(** ** config.py: reading the file *)
(* ===================================================================== *)

Module config_file.
Import Py config.

(** The file system as [load_config] sees it: [Path(path).exists()], and
    opening the file and decoding it with [yaml.safe_load] (either of which
    may raise). *)
Record FileSystem : Type := {
  path_exists : string -> bool;
  safe_load : string -> result value;
}.

Definition FileNotFoundError (msg : string) : exn :=
  Exception "FileNotFoundError" msg.

(** [Config.from_dict(data)] on whatever the YAML document decoded to:
    [data["wallet"]] is a [TypeError] on anything but a mapping. *)
Definition from_document (data : value) : result (Config value value value) :=
  match data with
  | VDict d => from_dict d
  | VStr _ => Raise (TypeError "string indices must be integers, not 'str'")
  | VList _ =>
      Raise (TypeError "list indices must be integers or slices, not str")
  | _ =>
      Raise (TypeError ("'" +:+ type_name data +:+
                        "' object is not subscriptable"))
  end.

(** [load_config] *)
Definition load_config (fs : FileSystem) (path : string)
  : result (Config value value value) :=
  if negb (path_exists fs path)
  then Raise (FileNotFoundError ("Config file not found: " +:+ path))
  else rbind (safe_load fs path) from_document.

End config_file.

(* ===================================================================== *)
(** ** monitor.py: the two alert checks *)
(* ===================================================================== *)

Module monitor.
Import Py config.

(** *** More of the Python runtime *)

(** [x <= z] with [x : float], [z : int], on the exact values. *)
Definition float_le_int (x : float) (z : Z) : bool :=
  match x with
  | S754_nan => false
  | S754_infinity s => s
  | S754_zero _ => 0 <=? z
  | S754_finite s m e => let '(n, d) := exact_fraction s m e in n <=? z * d
  end.

(** [s.replace(old, new)] for a non-empty [old]: the occurrences of [old]
    are replaced from left to right, without overlap.  [skip] counts the
    characters of an occurrence still to be dropped. *)
Fixpoint replace_from (old new : string) (skip : nat) (s : string) : string :=
  match s with
  | EmptyString => EmptyString
  | String c rest =>
      match skip with
      | S k => replace_from old new k rest
      | O =>
          if String.prefix old s
          then new +:+ replace_from old new (String.length old - 1) rest
          else String c (replace_from old new 0 rest)
      end
  end.

Definition str_replace (old new s : string) : string :=
  replace_from old new 0 s.

(** [s.split("-")[0]]: what comes before the first hyphen. *)
Fixpoint before_hyphen (s : string) : string :=
  match s with
  | EmptyString => EmptyString
  | String c rest =>
      if Ascii.eqb c "-"%char then EmptyString
      else String c (before_hyphen rest)
  end.

(** Digits with a comma between groups of three, counted from the right:
    the [,] option of the format mini-language. *)
Fixpoint group_rev (digits : list ascii) (n : nat) : list ascii :=
  match digits with
  | [] => []
  | d :: rest =>
      match n, rest with
      | 2%nat, _ :: _ => d :: ","%char :: group_rev rest 0
      | _, _ => d :: group_rev rest (S n)
      end
  end.

Definition group_thousands (digits : string) : string :=
  string_of_list_ascii
    (rev (group_rev (rev (list_ascii_of_string digits)) 0)).

(** [format(x, ",.<d>f")] *)
Definition format_grouped (decimals : N) (x : float) : string :=
  match x with
  | S754_finite s m e =>
      let '(n, d) := exact_fraction false m e in
      let scale := 10 ^ Z.of_N decimals in
      let r := Z.to_N (round_half_even (n * scale) d) in
      (if s then "-" else "") +:+
      group_thousands (str_nat (r / Z.to_N scale)) +:+
      (if (decimals =? 0)%N then ""
       else "." +:+ str_padded decimals (r mod Z.to_N scale))
  | _ => format_fixed decimals x
  end.

(** *** Constants (lines 38-42) *)

(** [EQUITY_DROP_THRESHOLD = 0.10] and [POSITION_ALERT_MULTIPLIER = 5],
    the latter as the float it becomes when multiplied with one. *)
Definition EQUITY_DROP_THRESHOLD : float :=
  S754_finite false 7205759403792794 (-56).
Definition POSITION_ALERT_MULTIPLIER : float :=
  binary_normalize prec emax 5 0 false.

(** The float literals [0.5] and [100.0] ([drop_ratio*100]). *)
Definition float_0_5 : float := S754_finite false 4503599627370496 (-53).
Definition float_100 : float := binary_normalize prec emax 100 0 false.

(** *** Notifications *)

(** What the monitor sends out: every call of its [send_notify] with its
    four arguments, and the HTTP request made when a URL is configured. *)
Inductive Event : Type :=
| send_notify_call (title message channel priority : string)
| requests_post_call (url : string) (json headers : list (string * string))
    (timeout : Z).

Record Runtime : Type := {
  environ : gmap string string;
  requests_post :
    list Event -> string -> list (string * string) ->
    list (string * string) -> Z -> result unit;
}.

Definition environ_get (rt : Runtime) (name : string) : string :=
  match environ rt !! name with Some v => v | None => "" end.

(** [send_notify]: the events it adds after the history [h].  Whether the
    request returns or raises an [Exception] makes no difference but to the
    log. *)
Definition send_notify (rt : Runtime) (h : list Event)
  (title message channel priority : string) : list Event :=
  let notify_url := environ_get rt "NOTIFY_URL" in
  let notify_api_key := environ_get rt "NOTIFY_API_KEY" in
  send_notify_call title message channel priority ::
  (if String.eqb notify_url "" then []
   else
     let headers :=
       if String.eqb notify_api_key "" then []
       else [("X-API-Key", notify_api_key)] in
     let json := [("title", title); ("message", message);
                  ("channel", channel); ("priority", priority)] in
     match requests_post rt
             (h ++ [send_notify_call title message channel priority])
             notify_url json headers 10 with
     | Ok _ | Raise _ => [requests_post_call notify_url json headers 10]
     end).

(** *** The account *)

(** [AccountState]; [StandXAuth] stands for [api.auth.StandXAuth], which
    the two checks never look into. *)
Record AccountState {StandXAuth : Type} : Type := {
  config_path : string;
  config_ : Config string Z float;
  auth : StandXAuth;
  initial_equity : float;
  current_equity : float;
  position : float;
  upnl : float;
  trader_pts : float;
  maker_pts : float;
  holder_pts : float;
  uptime_12h : string;
  latency_stats : list (string * (float * float));
  low_equity_alerted : bool;
  high_position_alerted : bool;
}.
Arguments AccountState : clear implicits.

Section Account.

Context {StandXAuth : Type}.
#[local] Abbreviation Account := (AccountState StandXAuth).

Definition set_initial_equity (x : float) (a : Account) : Account :=
  {| config_path := config_path a; config_ := config_ a; auth := auth a;
     initial_equity := x; current_equity := current_equity a;
     position := position a; upnl := upnl a;
     trader_pts := trader_pts a; maker_pts := maker_pts a;
     holder_pts := holder_pts a; uptime_12h := uptime_12h a;
     latency_stats := latency_stats a;
     low_equity_alerted := low_equity_alerted a;
     high_position_alerted := high_position_alerted a |}.

Definition set_high_position_alerted (b : bool) (a : Account) : Account :=
  {| config_path := config_path a; config_ := config_ a; auth := auth a;
     initial_equity := initial_equity a;
     current_equity := current_equity a;
     position := position a; upnl := upnl a;
     trader_pts := trader_pts a; maker_pts := maker_pts a;
     holder_pts := holder_pts a; uptime_12h := uptime_12h a;
     latency_stats := latency_stats a;
     low_equity_alerted := low_equity_alerted a;
     high_position_alerted := b |}.

Variable rt : Runtime.

(** [check_equity_alert]: the account afterwards and the events added
    after the history [h]. *)
Definition check_equity_alert (h : list Event) (account : Account)
  : Account * list Event :=
  if float_le_int (initial_equity account) 0 then (account, [])
  else
    let drop_ratio :=
      fdiv (fsub (initial_equity account) (current_equity account))
           (initial_equity account) in
    if fge drop_ratio EQUITY_DROP_THRESHOLD then
      let msg :=
        config_path account +:+ " 余额告警! " +:+
        "基准$" +:+ format_grouped 0 (initial_equity account) +:+
        " → 当前$" +:+ format_grouped 0 (current_equity account) +:+ " " +:+
        "(降" +:+ format_fixed 1 (fmul drop_ratio float_100) +:+ "%)" in
      (set_initial_equity (current_equity account) account,
       send_notify rt h "余额告警" msg "alert" "critical")
    else (account, []).

(** [check_position_alert] *)
Definition check_position_alert (h : list Event) (account : Account)
  : Account * list Event :=
  let order_size := order_size_btc (config_ account) in
  let threshold := fmul order_size POSITION_ALERT_MULTIPLIER in
  let '(account1, evs) :=
    if fgt (fabs (position account)) threshold
       && negb (high_position_alerted account)
    then
      let name :=
        str_replace "config" "main"
          (str_replace "config-" ""
             (str_replace ".yaml" "" (config_path account))) in
      let asset :=
        if String.eqb (symbol (config_ account)) "" then "BTC"
        else before_hyphen (symbol (config_ account)) in
      let msg :=
        name +:+ " 仓位告警: " +:+ format_fixed 4 (position account) +:+ " "
        +:+ asset +:+ " (阈值: ±" +:+ format_fixed 4 threshold +:+ ")" in
      (set_high_position_alerted true account,
       send_notify rt h "仓位告警" msg "info" "normal")
    else (account, []) in
  if flt (fabs (position account1)) (fmul threshold float_0_5)
  then (set_high_position_alerted false account1, evs)
  else (account1, evs).

End Account.

(** The calls of [send_notify] among some events, as (channel, priority). *)
Fixpoint notified (evs : list Event) : list (string * string) :=
  match evs with
  | [] => []
  | send_notify_call _ _ channel priority :: rest =>
      (channel, priority) :: notified rest
  | _ :: rest => notified rest
  end.

End monitor.

(* ===================================================================== *)
(** ** More concrete scenarios *)
(* ===================================================================== *)

Module scenario_more.
Import Py config state maker tick_plan startup config_file scenario.

(** Both sides quoted 10 bps from a last price of 50000. *)
Definition resting_buy : OpenOrder :=
  {| cl_ord_id := "mm-buy-11111111"; side := buy;
     price := float_49950; qty := float_0_01 |}.
Definition resting_sell : OpenOrder :=
  {| cl_ord_id := "mm-sell-22222222"; side := sell;
     price := float_50050; qty := float_0_01 |}.

Definition quoted : State :=
  {| position := S754_zero false;
     last_price := Some float_50000;
     buy_order := Some resting_buy; sell_order := Some resting_sell;
     price_history := [] |}.

(** A feed that delivered NaN as the last price. *)
Definition nan_price : State :=
  {| position := S754_zero false;
     last_price := Some S754_nan;
     buy_order := None; sell_order := None;
     price_history := [] |}.

(** An empty engine state before start-up. *)
Definition blank : State :=
  {| position := S754_zero false;
     last_price := None;
     buy_order := None; sell_order := None;
     price_history := [] |}.

(** No string is a number: the exchange of these scenarios reports prices
    and quantities as numbers. *)
Definition no_parser (s : string) : result float :=
  Raise (ValueError ("could not convert string to float: " +:+ s)).

(** An exchange reporting a position of 0.5 and three open orders: two
    buys and one order of a side the engine does not know. *)
Definition first_buy : OrderInfo :=
  {| order_cl_ord_id := "mm-buy-aaaaaaaa"; order_side := "buy";
     order_price := VInt 49900; order_qty := VFloat float_0_01 |}.
Definition second_buy : OrderInfo :=
  {| order_cl_ord_id := "mm-buy-bbbbbbbb"; order_side := "buy";
     order_price := VFloat float_49950; order_qty := VFloat float_0_01 |}.
Definition odd_order : OrderInfo :=
  {| order_cl_ord_id := "manual-1"; order_side := "hold";
     order_price := VNone; order_qty := VNone |}.

Definition reporting : StandXQueries :=
  {| query_positions := fun _ _ => Ok [{| position_qty := float_0_5 |}];
     query_open_orders := fun _ _ => Ok [first_buy; odd_order; second_buy] |}.

(** An exchange whose position query fails, and one whose order query
    fails after the position query answered. *)
Definition unreachable_api : StandXQueries :=
  {| query_positions := fun _ _ => Raise (Exception "TimeoutError" "timed out");
     query_open_orders := fun _ _ => Ok [] |}.

Definition half_reachable_api : StandXQueries :=
  {| query_positions := fun _ _ => Ok [{| position_qty := float_0_5 |}];
     query_open_orders := fun _ _ =>
       Raise (Exception "TimeoutError" "timed out") |}.

(** A directory holding the configuration of the scenarios as
    [config.yaml] and an empty file [empty.yaml]. *)
Definition disk : FileSystem :=
  {| path_exists := fun path =>
       String.eqb path "config.yaml" || String.eqb path "empty.yaml";
     safe_load := fun path =>
       if String.eqb path "config.yaml" then Ok (VDict yaml) else Ok VNone |}.

(** A monitored account whose equity fell from 10000 to 8900, holding 0.5
    against an order size of 0.01. *)
Definition monitor_quiet : monitor.Runtime :=
  {| monitor.environ := ∅;
     monitor.requests_post := fun _ _ _ _ _ => Ok tt |}.

Definition account_btc : monitor.AccountState unit :=
  {| monitor.config_path := "config-btc.yaml";
     monitor.config_ := btc_config 5;
     monitor.auth := tt;
     monitor.initial_equity := float_of_Z 10000;
     monitor.current_equity := float_of_Z 8900;
     monitor.position := float_0_5;
     monitor.upnl := S754_zero false;
     monitor.trader_pts := S754_zero false;
     monitor.maker_pts := S754_zero false;
     monitor.holder_pts := S754_zero false;
     monitor.uptime_12h := "";
     monitor.latency_stats := [];
     monitor.low_equity_alerted := false;
     monitor.high_position_alerted := false |}.

End scenario_more.

(* ===================================================================== *)
(** ** Properties *)
(* ===================================================================== *)

Import Py config state maker.

(** *** Floor and ceiling *)

Lemma exact_fraction_den_pos (s : bool) (m : positive) (e : Z) :
  0 < snd (exact_fraction s m e).
Proof.
  unfold exact_fraction. destruct e; cbn [snd]; lia.
Qed.

(** [math_floor] is the floor of the exact value [num / den] of the float:
    the greatest integer [n] with [n <= num / den]. *)
Lemma math_floor_spec (s : bool) (m : positive) (e n : Z) :
  math_floor (S754_finite s m e) = Ok n ->
  let num := fst (exact_fraction s m e) in
  let den := snd (exact_fraction s m e) in
  n * den <= num < (n + 1) * den.
Proof.
  simpl. pose proof (exact_fraction_den_pos s m e) as Hden.
  destruct (exact_fraction s m e) as [num den]. simpl in *.
  intros H. injection H as <-.
  pose proof (Z.div_mod num den) as Hdm.
  pose proof (Z.mod_pos_bound num den Hden). nia.
Qed.

(** [math_ceil] is the ceiling: the least integer [n] with
    [num / den <= n]. *)
Lemma math_ceil_spec (s : bool) (m : positive) (e n : Z) :
  math_ceil (S754_finite s m e) = Ok n ->
  let num := fst (exact_fraction s m e) in
  let den := snd (exact_fraction s m e) in
  (n - 1) * den < num <= n * den.
Proof.
  simpl. pose proof (exact_fraction_den_pos s m e) as Hden.
  destruct (exact_fraction s m e) as [num den]. simpl in *.
  intros H. injection H as <-.
  pose proof (Z.div_mod (- num) den) as Hdm.
  pose proof (Z.mod_pos_bound (- num) den Hden). nia.
Qed.

(** *** Traces *)

Lemma cancelled_ids_app (xs ys : list Event) :
  cancelled_ids (xs ++ ys) = (cancelled_ids xs ++ cancelled_ids ys)%list.
Proof.
  induction xs as [|[] xs IH]; simpl; auto. now rewrite IH.
Qed.

Lemma submitted_app (xs ys : list Event) :
  submitted (xs ++ ys) = (submitted xs ++ submitted ys)%list.
Proof.
  induction xs as [|[] xs IH]; simpl; auto. now rewrite IH.
Qed.

Lemma high_alerts_app (xs ys : list Event) :
  high_alerts (xs ++ ys) = (high_alerts xs ++ high_alerts ys)%list.
Proof.
  induction xs as [|[] xs IH]; simpl; auto.
  destruct (String.eqb _ _); simpl; now rewrite IH.
Qed.

(** *** The alert sink *)

(** What one call of [send_notify] does to the world: it returns, the
    engine's state and the UUID counter are as before, and the trace grows
    by the call itself followed by at most the HTTP request. *)
Lemma send_notify_run (rt : Runtime) (title message priority : string)
  (w : World) :
  exists w' posts,
    send_notify rt title message priority w = (Ok tt, w')
    /\ self_state w' = self_state w
    /\ uuid_calls w' = uuid_calls w
    /\ trace w' = (trace w ++ send_notify_call title message priority :: posts)%list
    /\ cancelled_ids posts = [] /\ submitted posts = []
    /\ high_alerts posts = [].
Proof.
  unfold send_notify, bind, emit, call, try_except, ret. simpl.
  destruct (String.eqb (environ_get rt "NOTIFY_URL") "").
  - eexists _, []. simpl. repeat split; reflexivity.
  - destruct (requests_post rt _ _ _ _ _) as [[]|e];
      eexists _, [_]; (split; [reflexivity|]); simpl;
      rewrite <- app_assoc; repeat split; reflexivity.
Qed.

(** C8.  Whatever the title, message and priority, and whatever the
    notification transport does (no [NOTIFY_URL] in the environment, the
    HTTP request raising, or the request returning any response),
    [send_notify] returns normally and the engine's trading state is the
    one it had before the call. *)
Theorem send_notify_never_raises (rt : Runtime)
  (title message priority : string) (w : World) :
  exists w',
    send_notify rt title message priority w = (Ok tt, w')
    /\ self_state w' = self_state w.
Proof.
  destruct (send_notify_run rt title message priority w)
    as (w' & posts & Hrun & Hst & _).
  exists w'. split; assumption.
Qed.

(** *** The tick pipeline *)

(** C1.  In a tick where a last price exists and [abs(position)] is at
    least [max_position_btc], [_tick] returns right after the position
    check with the world untouched: the trace gains no cancel call, no
    placement call and no alert, and neither the order slots nor the
    position change. *)
Theorem tick_position_brake (rt : Runtime) (self : Maker) (w : World)
  (p : float) :
  last_price (self_state w) = Some p ->
  fge (fabs (position (self_state w))) (max_position_btc (config self)) = true ->
  _tick rt self w = (Ok tt, w).
Proof.
  intros Hprice Hpos.
  unfold _tick, bind, get_state, ret. simpl.
  rewrite Hprice, Hpos. reflexivity.
Qed.

(** *** The cancel loop *)

Lemma set_order_position (sd : Side) (o : option OpenOrder) (s : State) :
  position (set_order sd o s) = position s.
Proof. destruct sd; reflexivity. Qed.

Lemma set_order_slot (sd : Side) (o : option OpenOrder) (s : State) :
  slot (set_order sd o s) sd = o.
Proof. destruct sd; reflexivity. Qed.

Lemma set_order_other_slot (sd sd' : Side) (o : option OpenOrder) (s : State) :
  sd <> sd' -> slot (set_order sd o s) sd' = slot s sd'.
Proof. destruct sd, sd'; simpl; congruence. Qed.

(** A loop over [xs ++ ys] runs the loop over [xs], then the one over [ys]
    unless an exception escaped. *)
Lemma for_each_app {A} (xs ys : list A) (body : A -> M unit) (w : World) :
  for_each (xs ++ ys) body w =
  match for_each xs body w with
  | (Ok _, w1) => for_each ys body w1
  | (Raise e, w1) => (Raise e, w1)
  end.
Proof.
  revert w. induction xs as [|x xs IH]; intros w; simpl.
  - reflexivity.
  - unfold bind. destruct (body x w) as [[[]|e] w1]; [apply IH | reflexivity].
Qed.

(** One pass through the body of the cancel loop. *)
Lemma cancel_one_run (rt : Runtime) (self : Maker) (o : OpenOrder) (w : World) :
  exists w' alerts,
    cancel_one rt self o w = (Ok tt, w')
    /\ uuid_calls w' = uuid_calls w
    /\ trace w' = (trace w ++ cancel_order_call (cl_ord_id o) :: alerts)%list
    /\ cancelled_ids alerts = [] /\ submitted alerts = []
    /\ match cancel_order (client self) (trace w) (cl_ord_id o) with
       | Ok _ =>
           self_state w' = set_order (side o) None (self_state w)
           /\ alerts = []
       | Raise e =>
           self_state w' = self_state w
           /\ high_alerts alerts =
                [("StandX 撤单失败",
                  symbol (config self) +:+ " 撤单失败: " +:+ exn_str e)]
       end.
Proof.
  unfold cancel_one, try_except, bind, call, update_state. simpl.
  destruct (cancel_order (client self) (trace w) (cl_ord_id o)) as [[]|e].
  - eexists _, []. simpl. repeat split; reflexivity.
  - edestruct (send_notify_run rt) as (w' & posts & Hrun & Hst & Hu & Htr & Hc & Hs & Hh).
    rewrite Hrun.
    exists w', (send_notify_call "StandX 撤单失败"
                  (symbol (config self) +:+ " 撤单失败: " +:+ exn_str e)
                  "high" :: posts).
    simpl in *. rewrite Htr, <- app_assoc, Hh. simpl.
    repeat split; assumption.
Qed.

(** The whole loop: it never raises, asks the gateway to cancel every order
    of the list in order, and submits nothing. *)
Lemma cancel_loop_run (rt : Runtime) (self : Maker) (orders : list OpenOrder) :
  forall w : World,
  exists w' evs,
    for_each orders (cancel_one rt self) w = (Ok tt, w')
    /\ trace w' = (trace w ++ evs)%list
    /\ cancelled_ids evs = map cl_ord_id orders
    /\ submitted evs = []
    /\ uuid_calls w' = uuid_calls w
    /\ position (self_state w') = position (self_state w).
Proof.
  induction orders as [|o rest IH]; intros w; simpl.
  - exists w, []. rewrite app_nil_r. repeat split; reflexivity.
  - destruct (cancel_one_run rt self o w)
      as (w1 & alerts & Hrun & Hu & Htr & Hc & Hs & Hst).
    destruct (IH w1) as (w2 & evs & Hrun2 & Htr2 & Hc2 & Hs2 & Hu2 & Hp2).
    exists w2, (cancel_order_call (cl_ord_id o) :: alerts ++ evs)%list.
    unfold bind. rewrite Hrun, Hrun2.
    split; [reflexivity|].
    split; [rewrite Htr2, Htr, <- app_assoc; reflexivity|].
    simpl. rewrite cancelled_ids_app, submitted_app, Hc, Hs, Hc2, Hs2.
    repeat split; try congruence.
    rewrite Hp2.
    destruct (cancel_order (client self) (trace w) (cl_ord_id o));
      destruct Hst as [-> _]; [apply set_order_position | reflexivity].
Qed.

(** C2.  In a tick that reaches the cancel evaluation (a last price exists,
    the position is under the limit) and gets a non-empty list from it,
    [_tick] asks the gateway to cancel each listed order, in order, and
    returns without a single call of [new_order], whatever the gateway
    answers to each cancellation. *)
Theorem tick_cancel_then_stop (rt : Runtime) (self : Maker) (w : World)
  (p : float) (o : OpenOrder) (rest : list OpenOrder) :
  last_price (self_state w) = Some p ->
  fge (fabs (position (self_state w))) (max_position_btc (config self)) = false ->
  get_orders_to_cancel (cancel_distance_bps (config self))
    (rebalance_distance_bps (config self)) (self_state w) = o :: rest ->
  exists w' evs,
    _tick rt self w = (Ok tt, w')
    /\ trace w' = (trace w ++ evs)%list
    /\ cancelled_ids evs = map cl_ord_id (o :: rest)
    /\ submitted evs = [].
Proof.
  intros Hprice Hpos Hlist.
  destruct (cancel_loop_run rt self (o :: rest) w)
    as (w' & evs & Hrun & Htr & Hc & Hs & _).
  exists w', evs.
  unfold _tick, bind, get_state, ret. simpl.
  rewrite Hprice, Hpos, Hlist.
  change (match for_each (o :: rest) (cancel_one rt self) w with
          | (Ok _, w'0) => (Ok tt, w'0)
          | (Raise e, w'0) => (Raise e, w'0)
          end = (Ok tt, w') /\ trace w' = (trace w ++ evs)%list
          /\ cancelled_ids evs = map cl_ord_id (o :: rest)
          /\ submitted evs = []).
  rewrite Hrun. auto.
Qed.

(** C4.  Take any order [o] of the cancel list of a tick, with [before] the
    orders listed ahead of it and [after] those behind.  The loop reaches
    [o] without an exception (world [w1]), runs its body on [o] (world
    [w2]) and goes on with [after] to the end of the tick (world [w3]),
    which returns normally.  If the gateway cancels [o], the slot of [o]'s
    side is cleared in [w2] and nothing else changes; if the gateway
    raises, the state in [w2] is exactly the state in [w1] and one
    high-priority alert has been emitted. *)
Theorem tick_cancel_each_order (rt : Runtime) (self : Maker) (w : World)
  (p : float) (before after : list OpenOrder) (o : OpenOrder) :
  last_price (self_state w) = Some p ->
  fge (fabs (position (self_state w))) (max_position_btc (config self)) = false ->
  get_orders_to_cancel (cancel_distance_bps (config self))
    (rebalance_distance_bps (config self)) (self_state w)
  = (before ++ o :: after)%list ->
  exists w1 w2 w3 alerts,
    for_each before (cancel_one rt self) w = (Ok tt, w1)
    /\ cancel_one rt self o w1 = (Ok tt, w2)
    /\ for_each after (cancel_one rt self) w2 = (Ok tt, w3)
    /\ _tick rt self w = (Ok tt, w3)
    /\ trace w2 = (trace w1 ++ cancel_order_call (cl_ord_id o) :: alerts)%list
    /\ match cancel_order (client self) (trace w1) (cl_ord_id o) with
       | Ok _ =>
           self_state w2 = set_order (side o) None (self_state w1)
           /\ slot (self_state w2) (side o) = None
           /\ high_alerts alerts = []
       | Raise e =>
           self_state w2 = self_state w1
           /\ high_alerts alerts =
                [("StandX 撤单失败",
                  symbol (config self) +:+ " 撤单失败: " +:+ exn_str e)]
       end.
Proof.
  intros Hprice Hpos Hlist.
  destruct (cancel_loop_run rt self before w) as (w1 & evs1 & Hrun1 & _).
  destruct (cancel_one_run rt self o w1)
    as (w2 & alerts & Hrun2 & _ & Htr & _ & _ & Hst).
  destruct (cancel_loop_run rt self after w2) as (w3 & evs3 & Hrun3 & _).
  exists w1, w2, w3, alerts.
  repeat (split; [assumption|]).
  split; [|split; [assumption|]].
  - unfold _tick, bind, get_state, ret. simpl.
    rewrite Hprice, Hpos, Hlist.
    destruct (before ++ o :: after)%list as [|x l] eqn:E.
    { destruct before; discriminate. }
    rewrite <- E.
    change (match for_each (before ++ o :: after) (cancel_one rt self) w with
            | (Ok _, w') => (Ok tt, w')
            | (Raise e, w') => (Raise e, w')
            end = (Ok tt, w3)).
    rewrite for_each_app, Hrun1. simpl. unfold bind.
    rewrite Hrun2, Hrun3. reflexivity.
  - destruct (cancel_order (client self) (trace w1) (cl_ord_id o)).
    + destruct Hst as [Hs ->]. rewrite Hs.
      repeat split. apply set_order_slot.
    + assumption.
Qed.

(** *** Placement *)

(** One call of [_place_order] whose price can be aligned: the gateway is
    asked once, the call returns normally, and the state changes only on
    an acceptance. *)
Lemma place_order_run (rt : Runtime) (self : Maker) (sd : Side)
  (price_ aligned : float) (w : World) :
  align sd price_ (tick_size (symbol (config self))) = Ok aligned ->
  exists w' alerts,
    _place_order rt self sd price_ w = (Ok tt, w')
    /\ uuid_calls w' = S (uuid_calls w)
    /\ trace w' =
       (trace w ++ placement self sd aligned (client_id rt sd w) :: alerts)%list
    /\ cancelled_ids alerts = [] /\ submitted alerts = []
    /\ if accepted (placement_reply self sd aligned (client_id rt sd w) w)
       then self_state w' =
              set_order sd (Some {| cl_ord_id := client_id rt sd w;
                                    side := sd;
                                    price := price_;
                                    qty := order_size_btc (config self) |})
                (self_state w)
            /\ alerts = []
       else self_state w' = self_state w
            /\ exists title message, high_alerts alerts = [(title, message)].
Proof.
  intros Halign.
  unfold _place_order, bind, uuid4, eval, try_except, call, update_state.
  simpl. rewrite Halign. simpl.
  fold (client_id rt sd w). unfold placement_reply, placement.
  set (id := client_id rt sd w).
  destruct (new_order (client self) (trace w) _ _ _ _ id) as [resp|e].
  - destruct resp as [| | | | | |d];
      try (simpl;
           edestruct (send_notify_run rt)
             as (w' & posts & Hrun & Hst & Hu & Htr & Hc & Hs & Hh);
           rewrite Hrun; exists w'; eexists (_ :: posts); simpl in *;
           rewrite Htr, <- app_assoc, Hh; simpl;
           repeat split; eauto; fail).
    simpl. destruct (eq_zero (dict_get d "code" VNone)).
    + eexists _, []. simpl. repeat split; reflexivity.
    + edestruct (send_notify_run rt)
        as (w' & posts & Hrun & Hst & Hu & Htr & Hc & Hs & Hh).
      rewrite Hrun. exists w'. eexists (_ :: posts). simpl in *.
      rewrite Htr, <- app_assoc, Hh. simpl. repeat split; eauto.
  - simpl.
    edestruct (send_notify_run rt)
      as (w' & posts & Hrun & Hst & Hu & Htr & Hc & Hs & Hh).
    rewrite Hrun. exists w'. eexists (_ :: posts). simpl in *.
    rewrite Htr, <- app_assoc, Hh. simpl. repeat split; eauto.
Qed.

(** C3.  Every placement attempt, that is every call of [_place_order]
    whose price can be aligned so that the gateway is asked, returns
    normally.  If the gateway's answer is a response with [code == 0], the
    slot of that side holds the new order afterwards and no alert is
    raised.  If the answer carries any other code, or is no response
    object, or the call raised, the state is exactly what it was (the slot
    stays as it was found) and one high-priority alert has been emitted. *)
Theorem place_order_outcome (rt : Runtime) (self : Maker) (sd : Side)
  (price_ aligned : float) (w : World) :
  align sd price_ (tick_size (symbol (config self))) = Ok aligned ->
  exists w' alerts,
    _place_order rt self sd price_ w = (Ok tt, w')
    /\ trace w' =
       (trace w ++ placement self sd aligned (client_id rt sd w) :: alerts)%list
    /\ submitted alerts = []
    /\ if accepted (placement_reply self sd aligned (client_id rt sd w) w)
       then slot (self_state w') sd =
              Some {| cl_ord_id := client_id rt sd w;
                      side := sd;
                      price := price_;
                      qty := order_size_btc (config self) |}
            /\ high_alerts alerts = []
       else self_state w' = self_state w
            /\ exists title message, high_alerts alerts = [(title, message)].
Proof.
  intros Halign.
  destruct (place_order_run rt self sd price_ aligned w Halign)
    as (w' & alerts & Hrun & _ & Htr & _ & Hs & Hst).
  exists w', alerts. repeat (split; [assumption|]).
  destruct (accepted _).
  - destruct Hst as [-> ->]. split; [apply set_order_slot | reflexivity].
  - assumption.
Qed.

(** *** Quote prices *)

#[local] Arguments _place_order : simpl never.
#[local] Arguments fadd : simpl never.
#[local] Arguments fsub : simpl never.
#[local] Arguments fmul : simpl never.
#[local] Arguments fdiv : simpl never.

Lemma has_order_set_other (sd sd' : Side) (o : option OpenOrder) (s : State) :
  sd <> sd' -> has_order sd' (set_order sd o s) = has_order sd' s.
Proof.
  intros H. unfold has_order. now rewrite set_order_other_slot.
Qed.

(** The placement step when both quote prices can be aligned: it returns
    normally and submits, in this order, a buy order if the buy slot is
    empty and a sell order if the sell slot is empty, at the aligned
    prices. *)
Lemma place_missing_run (rt : Runtime) (self : Maker) (w : World)
  (last q buy_px sell_px : float) :
  last_price (self_state w) = Some last ->
  int_truediv (order_distance_bps (config self)) 10000 = Ok q ->
  align buy (fmul last (fsub float_1 q)) (tick_size (symbol (config self)))
  = Ok buy_px ->
  align sell (fmul last (fadd float_1 q)) (tick_size (symbol (config self)))
  = Ok sell_px ->
  exists w' evs,
    _place_missing_orders rt self w = (Ok tt, w')
    /\ trace w' = (trace w ++ evs)%list
    /\ cancelled_ids evs = []
    /\ submitted evs =
       ((if has_order buy (self_state w) then []
         else [("buy", format_fixed (price_decimals (symbol (config self)))
                         buy_px)]) ++
        (if has_order sell (self_state w) then []
         else [("sell", format_fixed (price_decimals (symbol (config self)))
                          sell_px)]))%list.
Proof.
  intros Hlast Hq Hbuy Hsell.
  unfold _place_missing_orders, bind, get_state, eval, ret. simpl.
  rewrite Hlast, Hq. simpl.
  destruct (has_order buy (self_state w)) eqn:Hb; simpl.
  - destruct (has_order sell (self_state w)) eqn:Hs; simpl.
    + exists w, []. rewrite app_nil_r. repeat split; reflexivity.
    + destruct (place_order_run rt self sell _ _ w Hsell)
        as (w' & alerts & Hrun & _ & Htr & Hc & Hsub & _).
      rewrite Hrun. eexists w', _. repeat split; [exact Htr | ..].
      * simpl. exact Hc.
      * simpl. now rewrite Hsub.
  - destruct (place_order_run rt self buy _ _ w Hbuy)
      as (w1 & alerts1 & Hrun1 & _ & Htr1 & Hc1 & Hsub1 & Hst1).
    rewrite Hrun1.
    assert (Hsame : has_order sell (self_state w1)
                    = has_order sell (self_state w)).
    { destruct (accepted _).
      - destruct Hst1 as [-> _]. now apply has_order_set_other.
      - destruct Hst1 as [-> _]. reflexivity. }
    rewrite Hsame.
    destruct (has_order sell (self_state w)) eqn:Hs; simpl.
    + eexists w1, _. repeat split; [exact Htr1 | ..].
      * simpl. exact Hc1.
      * simpl. now rewrite Hsub1.
    + destruct (place_order_run rt self sell _ _ w1 Hsell)
        as (w2 & alerts2 & Hrun2 & _ & Htr2 & Hc2 & Hsub2 & _).
      rewrite Hrun2. eexists w2, _. split; [reflexivity|].
      split; [rewrite Htr2, Htr1, <- app_assoc; reflexivity|].
      simpl. rewrite cancelled_ids_app, submitted_app. simpl.
      rewrite Hc1, Hc2, Hsub1, Hsub2. split; reflexivity.
Qed.

Import scenario.

Lemma scenario_D_ratio : int_truediv 10 10000 = Ok float_0_001.
Proof. vm_compute. reflexivity. Qed.

Lemma scenario_D_buy :
  align buy (fmul float_50000 (fsub float_1 float_0_001)) float_0_01
  = Ok float_49950
  /\ format_fixed 2 float_49950 = "49950.00".
Proof. split; vm_compute; reflexivity. Qed.

Lemma scenario_D_sell :
  align sell (fmul float_50000 (fadd float_1 float_0_001)) float_0_01
  = Ok float_50050
  /\ format_fixed 2 float_50050 = "50050.00".
Proof. split; vm_compute; reflexivity. Qed.

(** C6.  The prices submitted are those of Python's arithmetic:
    [int / int] is the correctly rounded quotient and every float operation
    is binary64, each rounding its result, so that a price can fall one
    tick from the one exact arithmetic gives (last price 290: a buy at
    289.70, not 289.71).  First part: in a
    placement step with last price [last], write [q] for
    [order_distance_bps / 10000]; the buy order submitted (when the buy
    slot is empty) carries the price [last * (1 - q)] rounded down to the
    tick, [floor(x / tick) * tick], and the sell order (when the sell slot
    is empty) carries [last * (1 + q)] rounded up, [ceil(x / tick) * tick],
    both printed with the instrument's number of decimals.  Second part,
    scenario D: with [order_distance_bps = 10], last price 50000, a symbol
    on the 0.01 tick and both slots empty, the two orders submitted are a
    buy at 49950.00 and a sell at 50050.00. *)
Theorem quote_prices :
  (forall (rt : Runtime) (self : Maker) (w : World)
          (last q buy_px sell_px : float),
     last_price (self_state w) = Some last ->
     int_truediv (order_distance_bps (config self)) 10000 = Ok q ->
     rbind (math_floor (fdiv (fmul last (fsub float_1 q))
                             (tick_size (symbol (config self)))))
           (fun n => int_mul_float n (tick_size (symbol (config self))))
     = Ok buy_px ->
     rbind (math_ceil (fdiv (fmul last (fadd float_1 q))
                            (tick_size (symbol (config self)))))
           (fun n => int_mul_float n (tick_size (symbol (config self))))
     = Ok sell_px ->
     exists w' evs,
       _place_missing_orders rt self w = (Ok tt, w')
       /\ trace w' = (trace w ++ evs)%list
       /\ submitted evs =
          ((if has_order buy (self_state w) then []
            else [("buy",
                   format_fixed (price_decimals (symbol (config self)))
                     buy_px)]) ++
           (if has_order sell (self_state w) then []
            else [("sell",
                   format_fixed (price_decimals (symbol (config self)))
                     sell_px)]))%list)
  /\
  (forall (rt : Runtime) (self : Maker) (w : World),
     order_distance_bps (config self) = 10 ->
     String.prefix "BTC" (symbol (config self)) = true ->
     last_price (self_state w) = Some float_50000 ->
     has_order buy (self_state w) = false ->
     has_order sell (self_state w) = false ->
     exists w' evs,
       _place_missing_orders rt self w = (Ok tt, w')
       /\ trace w' = (trace w ++ evs)%list
       /\ submitted evs = [("buy", "49950.00"); ("sell", "50050.00")]).
Proof.
  split.
  - intros rt self w last q buy_px sell_px Hlast Hq Hbuy Hsell.
    destruct (place_missing_run rt self w last q buy_px sell_px
                Hlast Hq Hbuy Hsell) as (w' & evs & Hrun & Htr & _ & Hsub).
    exists w', evs. auto.
  - intros rt self w Hbps Hbtc Hlast Hb Hs.
    destruct scenario_D_buy as [Hbuy Hbuy_str].
    destruct scenario_D_sell as [Hsell Hsell_str].
    destruct (place_missing_run rt self w float_50000 float_0_001
                float_49950 float_50050) as (w' & evs & Hrun & Htr & _ & Hsub).
    + exact Hlast.
    + rewrite Hbps. exact scenario_D_ratio.
    + unfold tick_size. rewrite Hbtc. exact Hbuy.
    + unfold tick_size. rewrite Hbtc. exact Hsell.
    + exists w', evs. repeat (split; [assumption|]).
      rewrite Hsub, Hb, Hs. unfold price_decimals. rewrite Hbtc.
      rewrite Hbuy_str, Hsell_str. reflexivity.
Qed.

(** C5 on the code.  Last price 50001, no resting order, an exchange that
    accepts every order.  The tick submits the buy order at the aligned
    price 49950.99, yet the order it records in the buy slot carries the
    unaligned target 49950.999: not the submitted price, and not even a
    multiple of the tick (it prints as 49951.00 at two decimals). *)
Theorem recorded_price_is_unaligned :
  exists (w' : World) (o : OpenOrder) (aligned : float),
    _tick quiet (engine accepting) (world_of off_tick) = (Ok tt, w')
    /\ submitted (trace w') = [("buy", "49950.99"); ("sell", "50051.01")]
    /\ buy_order (self_state w') = Some o
    /\ align buy (price o) float_0_01 = Ok aligned
    /\ format_fixed 2 aligned = "49950.99"
    /\ format_fixed 2 (price o) = "49951.00"
    /\ price o <> aligned.
Proof.
  eexists _, _, _.
  split; [vm_compute; reflexivity|].
  split; [vm_compute; reflexivity|].
  split; [vm_compute; reflexivity|].
  split; [vm_compute; reflexivity|].
  split; [vm_compute; reflexivity|].
  split; [vm_compute; reflexivity|].
  vm_compute. discriminate.
Qed.

(** *** The volatility gate *)

Lemma float_eq_not_gt (x : float) (z : Z) :
  float_eq_int x z = true -> float_gt_int x z = false.
Proof.
  destruct x as [s|s| |s m e]; simpl; try discriminate.
  - intros H. apply Z.eqb_eq in H. subst z. reflexivity.
  - destruct (exact_fraction s m e) as [n d].
    intros H. apply Z.eqb_eq in H. apply Z.ltb_ge. lia.
Qed.

(** *** The tick size *)

(** C10.  The tick used to align an order price is no field of the
    configuration: whatever the rest of the configuration, [_place_order]
    aligns with the float 0.01 and prints two decimals when the symbol
    starts with "BTC", and aligns with the float 0.1 and prints one decimal
    for every other symbol.  The two floats are the binary64 numbers
    nearest to 1/100 and 1/10. *)
Theorem tick_size_by_symbol (rt : Runtime) (self : Maker) (sd : Side)
  (price_ : float) (w : World) :
  let btc := String.prefix "BTC" (symbol (config self)) in
  let tick := if btc then float_0_01 else float_0_1 in
  let decimals := if btc then 2%N else 1%N in
  int_truediv 1 100 = Ok float_0_01
  /\ int_truediv 1 10 = Ok float_0_1
  /\ tick_size (symbol (config self)) = tick
  /\ price_decimals (symbol (config self)) = decimals
  /\ forall aligned : float,
       align sd price_ tick = Ok aligned ->
       exists w' evs,
         _place_order rt self sd price_ w = (Ok tt, w')
         /\ trace w' = (trace w ++ evs)%list
         /\ submitted evs = [(side_str sd, format_fixed decimals aligned)].
Proof.
  intros btc tick decimals.
  split; [vm_compute; reflexivity|].
  split; [vm_compute; reflexivity|].
  assert (Ht : tick_size (symbol (config self)) = tick).
  { unfold tick_size, tick, btc. now destruct (String.prefix _ _). }
  assert (Hd : price_decimals (symbol (config self)) = decimals).
  { unfold price_decimals, decimals, btc. now destruct (String.prefix _ _). }
  repeat (split; [assumption|]).
  intros aligned Halign. rewrite <- Ht in Halign.
  destruct (place_order_run rt self sd price_ aligned w Halign)
    as (w' & alerts & Hrun & _ & Htr & _ & Hsub & _).
  exists w', (placement self sd aligned (client_id rt sd w) :: alerts).
  repeat (split; [assumption|]).
  simpl. now rewrite Hsub, Hd.
Qed.

(** *** Loading the configuration *)

Ltac field_present H name :=
  let v := fresh "v" in
  let E := fresh "E" in
  destruct (H name) as [v E]; [simpl; tauto | rewrite E; simpl; clear E].

(** C9.  (1) A dict with a wallet section holding [private_key] or
    [api_token], with every listed field except [rebalance_distance_bps],
    loads, and the loaded [rebalance_distance_bps] is 20.  (2) A dict
    lacking any one of the other listed fields makes [from_dict] raise.
    (3) A wallet section with neither [private_key] nor [api_token] makes
    [from_dict] raise its "must be provided" error. *)
Theorem from_dict_required_fields :
  (forall (data wallet_data : dict),
     data !! "wallet" = Some (VDict wallet_data) ->
     is_Some (wallet_data !! "private_key")
     \/ is_Some (wallet_data !! "api_token") ->
     (forall f, In f required_fields -> is_Some (data !! f)) ->
     data !! "rebalance_distance_bps" = None ->
     exists c, from_dict data = Ok c /\ rebalance_distance_bps c = VInt 20)
  /\ (forall (data : dict) (f : string),
        In f required_fields ->
        data !! f = None ->
        raised (from_dict data) = true)
  /\ (forall (data wallet_data : dict),
        data !! "wallet" = Some (VDict wallet_data) ->
        wallet_data !! "private_key" = None ->
        wallet_data !! "api_token" = None ->
        from_dict data = Raise no_credentials).
Proof.
  split; [|split].
  - intros data wallet_data Hw Hcred Hreq Hreb.
    unfold from_dict, getitem. rewrite Hw. simpl.
    assert (Hgate :
      (if negb match wallet_data !! "api_token" with
               | Some _ => true | None => false end
       then Ok (negb match wallet_data !! "private_key" with
                     | Some _ => true | None => false end)
       else Ok false) = Ok false).
    { destruct Hcred as [[k ->]|[t ->]]; simpl;
        [destruct (wallet_data !! "api_token")|]; reflexivity. }
    rewrite Hgate. simpl.
    field_present Hreq "symbol".
    field_present Hreq "order_distance_bps".
    field_present Hreq "cancel_distance_bps".
    field_present Hreq "order_size_btc".
    field_present Hreq "max_position_btc".
    field_present Hreq "volatility_window_sec".
    field_present Hreq "volatility_threshold_bps".
    eexists. split; [reflexivity|].
    simpl. unfold dict_get. now rewrite Hreb.
  - intros data f Hin Hmissing.
    unfold from_dict, getitem.
    destruct (data !! "wallet") as [wallet_data|]; [|reflexivity]. simpl.
    destruct (contains "api_token" wallet_data) as [[]|]; simpl;
      [| destruct (contains "private_key" wallet_data) as [[]|]; simpl
       | ]; try reflexivity;
      (destruct (attr_get wallet_data "chain" (VStr "bsc"));
         [simpl|reflexivity];
       destruct (attr_get wallet_data "private_key" VNone);
         [simpl|reflexivity];
       destruct (attr_get wallet_data "api_token" VNone);
         [simpl|reflexivity];
       destruct (attr_get wallet_data "api_secret" VNone);
         [simpl|reflexivity];
       simpl in Hin;
       repeat (destruct Hin as [<-|Hin]; [rewrite Hmissing|]);
       try contradiction;
       repeat match goal with
              | |- context [data !! ?k] =>
                  destruct (data !! k); simpl; try reflexivity
              end).
  - intros data wallet_data Hw Hkey Htoken.
    unfold from_dict, getitem. rewrite Hw. simpl.
    rewrite Hkey, Htoken. reflexivity.
Qed.

(* ===================================================================== *)
(** ** The properties on the scenarios *)
(* ===================================================================== *)

(** Scenario C: position 0.5 against a limit of 0.5. *)
Lemma tick_position_brake_scenario_C :
  last_price (self_state (world_of at_limit)) = Some float_50000
  /\ fge (fabs (position (self_state (world_of at_limit))))
         (max_position_btc (config (engine accepting))) = true
  /\ _tick quiet (engine accepting) (world_of at_limit)
     = (Ok tt, world_of at_limit).
Proof.
  split; [reflexivity|]. split; [vm_compute; reflexivity|].
  apply (tick_position_brake quiet (engine accepting) (world_of at_limit)
           float_50000); vm_compute; reflexivity.
Defined.

(** Both resting orders have drifted and every cancellation fails. *)
Lemma tick_cancel_then_stop_drifted :
  get_orders_to_cancel 5 20 drifted = [stale_buy; stale_sell]
  /\ exists w' evs,
       _tick unreachable (engine rejecting) (world_of drifted) = (Ok tt, w')
       /\ trace w' = (trace (world_of drifted) ++ evs)%list
       /\ cancelled_ids evs = map cl_ord_id [stale_buy; stale_sell]
       /\ submitted evs = [].
Proof.
  split; [vm_compute; reflexivity|].
  apply (tick_cancel_then_stop unreachable (engine rejecting)
           (world_of drifted) float_50000 stale_buy [stale_sell]);
    vm_compute; reflexivity.
Defined.

(** The second order of the list, after a first cancellation that failed. *)
Lemma tick_cancel_each_order_drifted :
  exists w1 w2 w3 alerts,
    for_each [stale_buy] (cancel_one unreachable (engine rejecting))
      (world_of drifted) = (Ok tt, w1)
    /\ cancel_one unreachable (engine rejecting) stale_sell w1 = (Ok tt, w2)
    /\ for_each [] (cancel_one unreachable (engine rejecting)) w2
       = (Ok tt, w3)
    /\ _tick unreachable (engine rejecting) (world_of drifted) = (Ok tt, w3)
    /\ trace w2 =
       (trace w1 ++ cancel_order_call (cl_ord_id stale_sell) :: alerts)%list
    /\ match cancel_order (client (engine rejecting)) (trace w1)
               (cl_ord_id stale_sell) with
       | Ok _ =>
           self_state w2 = set_order (side stale_sell) None (self_state w1)
           /\ slot (self_state w2) (side stale_sell) = None
           /\ high_alerts alerts = []
       | Raise e =>
           self_state w2 = self_state w1
           /\ high_alerts alerts =
                [("StandX 撤单失败",
                  symbol (config (engine rejecting)) +:+ " 撤单失败: "
                  +:+ exn_str e)]
       end.
Proof.
  apply (tick_cancel_each_order unreachable (engine rejecting)
           (world_of drifted) float_50000 [stale_buy] [] stale_sell);
    vm_compute; reflexivity.
Defined.

(** A buy order at 49950 that the exchange rejects with code 1. *)
Lemma place_order_outcome_rejected :
  align buy float_49950 (tick_size (symbol (config (engine rejecting))))
  = Ok float_49950
  /\ exists w' alerts,
       _place_order quiet (engine rejecting) buy float_49950 (world_of flat)
       = (Ok tt, w')
       /\ trace w' =
          (trace (world_of flat)
           ++ placement (engine rejecting) buy float_49950
                (client_id quiet buy (world_of flat)) :: alerts)%list
       /\ submitted alerts = []
       /\ if accepted (placement_reply (engine rejecting) buy float_49950
                         (client_id quiet buy (world_of flat)) (world_of flat))
          then slot (self_state w') buy =
                 Some {| cl_ord_id := client_id quiet buy (world_of flat);
                         side := buy;
                         price := float_49950;
                         qty := order_size_btc (config (engine rejecting)) |}
               /\ high_alerts alerts = []
          else self_state w' = self_state (world_of flat)
               /\ exists title message,
                    high_alerts alerts = [(title, message)].
Proof.
  split; [vm_compute; reflexivity|].
  apply (place_order_outcome quiet (engine rejecting) buy float_49950
           float_49950 (world_of flat)).
  vm_compute; reflexivity.
Defined.

(** Scenario D through the general statement. *)
Lemma quote_prices_scenario_D :
  exists w' evs,
    _place_missing_orders quiet (engine accepting) (world_of flat)
    = (Ok tt, w')
    /\ trace w' = (trace (world_of flat) ++ evs)%list
    /\ submitted evs =
       ((if has_order buy (self_state (world_of flat)) then []
         else [("buy",
                format_fixed
                  (price_decimals (symbol (config (engine accepting))))
                  float_49950)]) ++
        (if has_order sell (self_state (world_of flat)) then []
         else [("sell",
                format_fixed
                  (price_decimals (symbol (config (engine accepting))))
                  float_50050)]))%list.
Proof.
  apply (proj1 quote_prices quiet (engine accepting) (world_of flat)
           float_50000 float_0_001 float_49950 float_50050);
    vm_compute; reflexivity.
Defined.

(** A sell order on a BTC symbol: tick 0.01, two decimals. *)
Lemma tick_size_by_symbol_btc :
  exists w' evs,
    _place_order quiet (engine accepting) sell float_50050 (world_of flat)
    = (Ok tt, w')
    /\ trace w' = (trace (world_of flat) ++ evs)%list
    /\ submitted evs = [("sell", "50050.00")].
Proof.
  destruct (tick_size_by_symbol quiet (engine accepting) sell float_50050
              (world_of flat)) as (_ & _ & _ & _ & Hsubmit).
  apply (Hsubmit float_50050). vm_compute; reflexivity.
Defined.

(** The configuration file of the scenarios loads with the default, and
    stops loading once [symbol] is taken out. *)
Lemma from_dict_required_fields_yaml :
  (exists c, from_dict yaml = Ok c /\ rebalance_distance_bps c = VInt 20)
  /\ raised (from_dict (delete "symbol" yaml)) = true
  /\ from_dict (<["wallet" := VDict ∅]> yaml) = Raise no_credentials.
Proof.
  destruct from_dict_required_fields as (Hload & Hmissing & Hwallet).
  split; [|split].
  - apply (Hload yaml yaml_wallet).
    + vm_compute; reflexivity.
    + left. eexists. vm_compute; reflexivity.
    + intros f Hin. simpl in Hin.
      repeat (destruct Hin as [<-|Hin];
              [eexists; vm_compute; reflexivity|]).
      contradiction.
    + vm_compute; reflexivity.
  - apply (Hmissing (delete "symbol" yaml) "symbol").
    + simpl. tauto.
    + vm_compute; reflexivity.
  - apply (Hwallet (<["wallet" := VDict ∅]> yaml) ∅); vm_compute; reflexivity.
Defined.

(** Binary64 at work: with last price 290 the buy target [290 * 0.999] is
    the float just under 289.71, so the order goes out at 289.70. *)
Example quote_prices_at_290 :
  let w := {| self_state :=
                {| position := S754_zero false;
                   last_price := Some (float_of_Z 290);
                   buy_order := None; sell_order := None;
                   price_history := [] |};
              trace := []; uuid_calls := 0 |} in
  let w' := snd (_place_missing_orders quiet (engine accepting) w) in
  submitted (trace w') = [("buy", "289.70"); ("sell", "290.29")]
  /\ option_map price (buy_order (self_state w'))
     = Some (S754_finite false 5096632218927759 (-44)).
Proof. vm_compute. split; reflexivity. Qed.

(** In scenario D exact arithmetic and binary64 agree: 49950.00 and
    50050.00. *)
Example stated_prices_scenario_D :
  stated.stated_price buy float_50000 10 100 2 = Some "49950.00"
  /\ stated.stated_price sell float_50000 10 100 2 = Some "50050.00".
Proof. vm_compute. split; reflexivity. Qed.

(** *** The state model on the scenarios of the spec *)

(** Scenario A: the volatility is the float 99.00990099009901. *)
Example volatility_scenario_A :
  get_volatility_bps scenario_A = S754_finite false 6967202393828119 (-46)
  /\ format_fixed 4 (get_volatility_bps scenario_A) = "99.0099".
Proof. vm_compute. split; reflexivity. Qed.

(** Scenario B: the order is 5 bps away (4.999999999999716 in binary64),
    under a cancel distance of 10, and is listed for cancellation. *)
Example cancel_list_scenario_B :
  distance_bps close_buy (float_of_Z 100)
  = S754_finite false 5629499534212800 (-50)
  /\ get_orders_to_cancel 10 20 scenario_B = [close_buy].
Proof. vm_compute. split; reflexivity. Qed.

(** A cleared slot holds no order, and an empty book has nothing to
    cancel. *)
Lemma has_order_after_clear (sd : Side) (o : OpenOrder) (s : State) :
  has_order sd (set_order sd None (set_order sd (Some o) s)) = false.
Proof. destruct sd; reflexivity. Qed.

Lemma nothing_to_cancel_when_empty (cancel_bps rebalance_bps : Z) (s : State) :
  buy_order s = None -> sell_order s = None ->
  get_orders_to_cancel cancel_bps rebalance_bps s = [].
Proof.
  intros Hb Hs. unfold get_orders_to_cancel. rewrite Hb, Hs.
  now destruct (last_price s).
Qed.

(* ===================================================================== *)
(** ** More of the tick pipeline *)
(* ===================================================================== *)

Import tick_plan startup.

Lemma placed_ids_app (xs ys : list Event) :
  placed_ids (xs ++ ys) = (placed_ids xs ++ placed_ids ys)%list.
Proof.
  induction xs as [|[] xs IH]; simpl; auto. now rewrite IH.
Qed.

Lemma notifications_app (xs ys : list Event) :
  notifications (xs ++ ys) = (notifications xs ++ notifications ys)%list.
Proof.
  induction xs as [|[] xs IH]; simpl; auto. now rewrite IH.
Qed.

Lemma same_market_refl (s : State) : same_market s s.
Proof. repeat split. Qed.

Lemma same_market_trans (s1 s2 s3 : State) :
  same_market s1 s2 -> same_market s2 s3 -> same_market s1 s3.
Proof.
  intros (P1 & L1 & H1) (P2 & L2 & H2). repeat split; congruence.
Qed.

Lemma same_market_set_order (sd : Side) (o : option OpenOrder) (s : State) :
  same_market s (set_order sd o s).
Proof. destruct sd; repeat split. Qed.

(** One call of [send_notify], with everything it adds to the trace. *)
Lemma send_notify_total (rt : Runtime) (title message priority : string)
  (w : World) :
  exists w' evs,
    send_notify rt title message priority w = (Ok tt, w')
    /\ self_state w' = self_state w
    /\ uuid_calls w' = uuid_calls w
    /\ trace w' = (trace w ++ evs)%list
    /\ cancelled_ids evs = [] /\ submitted evs = [] /\ placed_ids evs = []
    /\ notifications evs = [(title, message, priority)].
Proof.
  unfold send_notify, bind, emit, call, try_except, ret. simpl.
  destruct (String.eqb (environ_get rt "NOTIFY_URL") "").
  - eexists _, [_]. simpl. repeat split; reflexivity.
  - destruct (requests_post rt _ _ _ _ _) as [[]|e];
      eexists _, [_; _]; (split; [reflexivity|]); simpl;
      rewrite <- app_assoc; repeat split; reflexivity.
Qed.

(** One pass through the body of the cancel loop, with everything it adds
    to the trace. *)
Lemma cancel_one_total (rt : Runtime) (self : Maker) (o : OpenOrder)
  (w : World) :
  exists w' evs,
    cancel_one rt self o w = (Ok tt, w')
    /\ trace w' = (trace w ++ evs)%list
    /\ uuid_calls w' = uuid_calls w
    /\ cancelled_ids evs = [cl_ord_id o]
    /\ submitted evs = [] /\ placed_ids evs = []
    /\ match cancel_order (client self) (trace w) (cl_ord_id o) with
       | Ok _ =>
           self_state w' = set_order (side o) None (self_state w)
           /\ notifications evs = []
       | Raise e =>
           self_state w' = self_state w
           /\ notifications evs =
                [("StandX 撤单失败",
                  symbol (config self) +:+ " 撤单失败: " +:+ exn_str e,
                  "high")]
       end.
Proof.
  unfold cancel_one, try_except, bind, call, update_state. simpl.
  destruct (cancel_order (client self) (trace w) (cl_ord_id o)) as [[]|e].
  - eexists _, [_]. simpl. repeat split; reflexivity.
  - edestruct (send_notify_total rt)
      as (w' & evs & Hrun & Hst & Hu & Htr & Hc & Hs & Hp & Hn).
    rewrite Hrun. exists w', (cancel_order_call (cl_ord_id o) :: evs).
    simpl in *. rewrite Htr, <- app_assoc, Hc, Hs, Hp, Hn. simpl.
    repeat split; assumption.
Qed.

(** The whole cancel loop, with everything it does. *)
Lemma cancel_loop_total (rt : Runtime) (self : Maker)
  (orders : list OpenOrder) :
  forall w : World,
  exists w' evs,
    for_each orders (cancel_one rt self) w = (Ok tt, w')
    /\ trace w' = (trace w ++ evs)%list
    /\ uuid_calls w' = uuid_calls w
    /\ cancelled_ids evs = map cl_ord_id orders
    /\ submitted evs = [] /\ placed_ids evs = []
    /\ same_market (self_state w) (self_state w')
    /\ (forall sd,
          slot (self_state w') sd = slot (self_state w) sd
          \/ (slot (self_state w') sd = None
              /\ exists o, In o orders /\ side o = sd))
    /\ (length (notifications evs) <= length orders)%nat
    /\ Forall (fun n => snd n = "high") (notifications evs)
    /\ (always_fails (client self) ->
        self_state w' = self_state w
        /\ length (notifications evs) = length orders)
    /\ (always_accepts (client self) ->
        notifications evs = []
        /\ forall o, In o orders -> slot (self_state w') (side o) = None).
Proof.
  induction orders as [|o rest IH]; intros w; simpl.
  - exists w, []. rewrite app_nil_r. simpl.
    repeat split; auto using same_market_refl; try tauto.
  - destruct (cancel_one_total rt self o w)
      as (w1 & evs1 & Hrun1 & Htr1 & Hu1 & Hc1 & Hs1 & Hp1 & Hst1).
    destruct (IH w1)
      as (w2 & evs2 & Hrun2 & Htr2 & Hu2 & Hc2 & Hs2 & Hp2 & Hm2 & Hsl2
          & Hlen2 & Hhigh2 & Hfail2 & Hacc2).
    exists w2, (evs1 ++ evs2)%list.
    unfold bind. rewrite Hrun1, Hrun2.
    split; [reflexivity|].
    split; [rewrite Htr2, Htr1, <- app_assoc; reflexivity|].
    split; [congruence|].
    rewrite cancelled_ids_app, submitted_app, placed_ids_app,
      notifications_app, Hc1, Hs1, Hp1, Hc2, Hs2, Hp2.
    split; [reflexivity|]. split; [reflexivity|]. split; [reflexivity|].
    destruct (cancel_order (client self) (trace w) (cl_ord_id o))
      as [u|e] eqn:Hreply; destruct Hst1 as [Hst1 Hn1]; rewrite Hn1; simpl.
    + (* the gateway cancelled [o] *)
      split.
      { eapply same_market_trans; [|exact Hm2].
        rewrite Hst1. apply same_market_set_order. }
      split.
      { intros sd. destruct (Hsl2 sd) as [Heq|[Hnone (o' & Hin & Hside)]].
        - rewrite Heq, Hst1.
          destruct o as [id [] px q], sd; simpl; eauto 6.
        - right. split; [assumption|]. eauto. }
      split; [lia|]. split; [assumption|].
      split.
      { intros [Hcancel _]. specialize (Hcancel (trace w) (cl_ord_id o)).
        rewrite Hreply in Hcancel. discriminate. }
      { intros Hacc. destruct (Hacc2 Hacc) as [Hnone Hcleared].
        split; [assumption|].
        intros o' [<-|Hin]; [|auto].
        destruct (Hsl2 (side o)) as [Heq|[Hn _]]; [|assumption].
        rewrite Heq, Hst1. apply set_order_slot. }
    + (* the gateway raised *)
      split; [rewrite <- Hst1; assumption|].
      split.
      { intros sd. destruct (Hsl2 sd) as [Heq|[Hnone (o' & Hin & Hside)]].
        - left. now rewrite Heq, Hst1.
        - right. split; [assumption|]. eauto. }
      split; [lia|].
      split; [constructor; [reflexivity|assumption]|].
      split.
      { intros Hfail. destruct (Hfail2 Hfail) as [Hsame Hcount].
        split; [congruence|]. now rewrite Hcount. }
      { intros [Hcancel _]. specialize (Hcancel (trace w) (cl_ord_id o)).
        rewrite Hreply in Hcancel. discriminate. }
Qed.

(** A price that cannot be aligned: [_place_order] raises after drawing its
    client id and before the gateway is asked. *)
Lemma place_order_raise (rt : Runtime) (self : Maker) (sd : Side)
  (price_ : float) (w : World) (e : exn) :
  align sd price_ (tick_size (symbol (config self))) = Raise e ->
  _place_order rt self sd price_ w
  = (Raise e, {| self_state := self_state w;
                 trace := trace w;
                 uuid_calls := S (uuid_calls w) |}).
Proof.
  intros Halign.
  unfold _place_order, bind, uuid4, eval. simpl. now rewrite Halign.
Qed.

(** One call of [_place_order], in every case. *)
Lemma place_order_total (rt : Runtime) (self : Maker) (sd : Side)
  (price_ : float) (w : World) :
  exists r w' evs,
    _place_order rt self sd price_ w = (r, w')
    /\ trace w' = (trace w ++ evs)%list
    /\ uuid_calls w' = S (uuid_calls w)
    /\ cancelled_ids evs = []
    /\ match align sd price_ (tick_size (symbol (config self))) with
       | Raise e => r = Raise e /\ evs = [] /\ self_state w' = self_state w
       | Ok aligned =>
           r = Ok tt
           /\ submitted evs =
              [(side_str sd,
                format_fixed (price_decimals (symbol (config self))) aligned)]
           /\ placed_ids evs = [client_id rt sd w]
           /\ if accepted (placement_reply self sd aligned
                             (client_id rt sd w) w)
              then self_state w' =
                     set_order sd
                       (Some {| cl_ord_id := client_id rt sd w;
                                side := sd;
                                price := price_;
                                qty := order_size_btc (config self) |})
                       (self_state w)
                   /\ notifications evs = []
              else self_state w' = self_state w
                   /\ exists title message,
                        notifications evs = [(title, message, "high")]
       end.
Proof.
  destruct (align sd price_ (tick_size (symbol (config self))))
    as [aligned|e] eqn:Halign.
  2:{ rewrite (place_order_raise rt self sd price_ w e Halign).
      eexists _, _, []. simpl. rewrite app_nil_r. repeat split. }
  unfold _place_order, bind, uuid4, eval, try_except, call, update_state.
  simpl. rewrite Halign. simpl.
  fold (client_id rt sd w). unfold placement_reply.
  set (id := client_id rt sd w).
  destruct (new_order (client self) (trace w) _ _ _ _ id) as [resp|e].
  - destruct resp as [| | | | | |d];
      try (simpl;
           edestruct (send_notify_total rt)
             as (w' & evs & Hrun & Hst & Hu & Htr & Hc & Hs & Hp & Hn);
           rewrite Hrun; eexists _, w', (_ :: evs); simpl in *;
           rewrite Htr, <- app_assoc, Hc, Hs, Hp, Hn; simpl;
           repeat split; eauto; fail).
    simpl. destruct (eq_zero (dict_get d "code" VNone)).
    + eexists _, _, [_]. simpl. repeat split; reflexivity.
    + edestruct (send_notify_total rt)
        as (w' & evs & Hrun & Hst & Hu & Htr & Hc & Hs & Hp & Hn).
      rewrite Hrun. eexists _, w', (_ :: evs). simpl in *.
      rewrite Htr, <- app_assoc, Hc, Hs, Hp, Hn. simpl.
      repeat split; eauto.
  - simpl.
    edestruct (send_notify_total rt)
      as (w' & evs & Hrun & Hst & Hu & Htr & Hc & Hs & Hp & Hn).
    rewrite Hrun. eexists _, w', (_ :: evs). simpl in *.
    rewrite Htr, <- app_assoc, Hc, Hs, Hp, Hn. simpl.
    repeat split; eauto.
Qed.

Lemma has_order_slot (sd : Side) (s : State) :
  has_order sd s = match slot s sd with Some _ => true | None => false end.
Proof. reflexivity. Qed.

(** Lines 195-196 and 199-200: place on one side if its slot is empty. *)
Lemma place_if_missing (rt : Runtime) (self : Maker) (sd : Side)
  (price_ : float) (w : World) :
  exists r w' evs,
    (if negb (has_order sd (self_state w))
     then _place_order rt self sd price_ else ret tt) w = (r, w')
    /\ trace w' = (trace w ++ evs)%list
    /\ cancelled_ids evs = []
    /\ same_market (self_state w) (self_state w')
    /\ (forall sd', sd' <> sd ->
          slot (self_state w') sd' = slot (self_state w) sd')
    /\ (slot (self_state w') sd = slot (self_state w) sd
        \/ (slot (self_state w) sd = None
            /\ exists o, slot (self_state w') sd = Some o
                         /\ side o = sd
                         /\ placed_ids evs = [cl_ord_id o]))
    /\ submitted evs =
       (if has_order sd (self_state w) then []
        else match align sd price_ (tick_size (symbol (config self))) with
             | Ok aligned =>
                 [(side_str sd,
                   format_fixed (price_decimals (symbol (config self)))
                     aligned)]
             | Raise _ => []
             end)
    /\ (r = Ok tt
        \/ exists e, r = Raise e
                     /\ has_order sd (self_state w) = false
                     /\ align sd price_ (tick_size (symbol (config self)))
                        = Raise e
                     /\ evs = [] /\ self_state w' = self_state w)
    /\ (r = Ok tt ->
        has_order sd (self_state w) = true
        \/ exists aligned,
             align sd price_ (tick_size (symbol (config self))) = Ok aligned)
    /\ (length (notifications evs) <= length (submitted evs))%nat
    /\ Forall (fun n => snd n = "high") (notifications evs)
    /\ (always_fails (client self) ->
        self_state w' = self_state w
        /\ length (notifications evs) = length (submitted evs))
    /\ (always_accepts (client self) ->
        notifications evs = []
        /\ (r = Ok tt -> has_order sd (self_state w') = true)).
Proof.
  destruct (has_order sd (self_state w)) eqn:Hhas; simpl.
  - exists (Ok tt), w, []. rewrite app_nil_r. simpl.
    repeat split; auto using same_market_refl.
  - destruct (place_order_total rt self sd price_ w)
      as (r & w' & evs & Hrun & Htr & _ & Hc & Hcase).
    exists r, w', evs. repeat (split; [assumption|]).
    assert (Hnone : slot (self_state w) sd = None).
    { rewrite has_order_slot in Hhas. now destruct (slot (self_state w) sd). }
    destruct (align sd price_ (tick_size (symbol (config self))))
      as [aligned|e].
    + destruct Hcase as (-> & Hsub & Hids & Hst). rewrite Hsub.
      destruct (accepted _) eqn:Hacc.
      * destruct Hst as [-> Hn]. rewrite Hn, Hids. simpl.
        split; [apply same_market_set_order|].
        split; [intros sd' Hne; apply set_order_other_slot; congruence|].
        split; [right; split; [assumption|]; eexists;
                split; [apply set_order_slot|]; split; reflexivity|].
        split; [reflexivity|]. split; [auto|]. split; [eauto|].
        split; [lia|]. split; [constructor|].
        split.
        { intros [_ Hrej]. unfold placement_reply in Hacc.
          rewrite Hrej in Hacc. discriminate. }
        { intros _. split; [reflexivity|]. intros _.
          rewrite has_order_slot, set_order_slot. reflexivity. }
      * destruct Hst as [-> (title & message & Hn)]. rewrite Hn. simpl.
        split; [apply same_market_refl|].
        split; [reflexivity|]. split; [auto|].
        split; [reflexivity|]. split; [auto|]. split; [eauto|].
        split; [lia|]. split; [repeat constructor|].
        split; [auto|].
        intros [_ Hok]. unfold placement_reply in Hacc.
        rewrite Hok in Hacc. discriminate.
    + destruct Hcase as (-> & -> & ->). simpl.
      split; [apply same_market_refl|].
      split; [reflexivity|]. split; [auto|].
      split; [reflexivity|].
      split; [right; exists e; repeat split|].
      split; [discriminate|].
      split; [lia|]. split; [constructor|].
      split; [auto|]. intros _. split; [reflexivity|discriminate].
Qed.

Lemma quote_ratio (self : Maker) (sd : Side) (last q : float) :
  int_truediv (order_distance_bps (config self)) 10000 = Ok q ->
  quote self sd last =
  match align sd (match sd with
                  | buy => fmul last (fsub float_1 q)
                  | sell => fmul last (fadd float_1 q)
                  end) (tick_size (symbol (config self))) with
  | Ok aligned =>
      Ok (side_str sd,
          format_fixed (price_decimals (symbol (config self))) aligned)
  | Raise e => Raise e
  end.
Proof.
  intros Hq. unfold quote. rewrite Hq. simpl.
  now destruct (align _ _ _).
Qed.

(** The placement step, in every case. *)
Lemma place_missing_total (rt : Runtime) (self : Maker) (w : World) :
  exists r w' evs,
    _place_missing_orders rt self w = (r, w')
    /\ trace w' = (trace w ++ evs)%list
    /\ cancelled_ids evs = []
    /\ submitted evs = quotes_of self (self_state w)
    /\ same_market (self_state w) (self_state w')
    /\ (forall sd,
          slot (self_state w') sd = slot (self_state w) sd
          \/ (slot (self_state w) sd = None
              /\ exists o, slot (self_state w') sd = Some o
                           /\ side o = sd
                           /\ In (cl_ord_id o) (placed_ids evs)))
    /\ (length (notifications evs) <= length (submitted evs))%nat
    /\ Forall (fun n => snd n = "high") (notifications evs)
    /\ (always_fails (client self) ->
        self_state w' = self_state w
        /\ length (notifications evs) = length (submitted evs))
    /\ (always_accepts (client self) ->
        notifications evs = []
        /\ (r = Ok tt -> last_price (self_state w) <> None ->
            has_order buy (self_state w') = true
            /\ has_order sell (self_state w') = true)).
Proof.
  unfold _place_missing_orders, bind, get_state, eval, quotes_of. simpl.
  destruct (last_price (self_state w)) as [last|] eqn:Hlast.
  2:{ exists (Ok tt), w, []. rewrite app_nil_r. simpl.
      repeat split; auto using same_market_refl; congruence. }
  destruct (int_truediv (order_distance_bps (config self)) 10000)
    as [q|e] eqn:Hq.
  2:{ exists (Raise e), w, []. rewrite app_nil_r. simpl.
      repeat split; auto using same_market_refl; discriminate. }
  simpl.
  rewrite (quote_ratio self buy last q Hq), (quote_ratio self sell last q Hq).
  destruct (place_if_missing rt self buy (fmul last (fsub float_1 q)) w)
    as (r1 & w1 & evs1 & Hrun1 & Htr1 & Hc1 & Hm1 & Hoth1 & Hown1 & Hsub1
        & Hres1 & Hok1 & Hlen1 & Hhigh1 & Hfail1 & Hacc1).
  rewrite Hrun1.
  destruct Hres1 as [->|(e & -> & Hhas & Halign & -> & Hst)].
  2:{ (* the buy price cannot be aligned *)
      exists (Raise e), w1, []. rewrite Hhas, Halign.
      repeat (split; [assumption || reflexivity|]).
      split; [intros sd; left; now rewrite Hst|].
      split; [simpl; lia|]. split; [constructor|].
      split; [auto|]. intros _. split; [reflexivity|discriminate]. }
  destruct (place_if_missing rt self sell (fmul last (fadd float_1 q)) w1)
    as (r2 & w2 & evs2 & Hrun2 & Htr2 & Hc2 & Hm2 & Hoth2 & Hown2 & Hsub2
        & Hres2 & Hok2 & Hlen2 & Hhigh2 & Hfail2 & Hacc2).
  rewrite Hrun2.
  assert (Hsell : has_order sell (self_state w1)
                  = has_order sell (self_state w)).
  { rewrite !has_order_slot. now rewrite (Hoth1 sell). }
  rewrite Hsell in Hsub2.
  exists r2, w2, (evs1 ++ evs2)%list.
  split; [reflexivity|].
  split; [rewrite Htr2, Htr1, <- app_assoc; reflexivity|].
  rewrite cancelled_ids_app, submitted_app, notifications_app, Hc1, Hc2.
  split; [reflexivity|].
  split.
  { rewrite Hsub1, Hsub2.
    assert (Hsell_part :
      (if has_order sell (self_state w) then []
       else match align sell (fmul last (fadd float_1 q))
                    (tick_size (symbol (config self))) with
            | Ok aligned =>
                [(side_str sell,
                  format_fixed (price_decimals (symbol (config self)))
                    aligned)]
            | Raise _ => []
            end)
      = (if has_order sell (self_state w) then []
         else match match align sell (fmul last (fadd float_1 q))
                            (tick_size (symbol (config self))) with
                    | Ok aligned =>
                        Ok (side_str sell,
                            format_fixed
                              (price_decimals (symbol (config self)))
                              aligned)
                    | Raise e => Raise e
                    end with
              | Ok q0 => [q0]
              | Raise _ => []
              end)).
    { destruct (has_order sell (self_state w)); [reflexivity|].
      now destruct (align sell _ _). }
    rewrite Hsell_part.
    destruct (has_order buy (self_state w)); [reflexivity|].
    destruct (Hok1 eq_refl) as [Hcontra|[a Ha]]; [discriminate|].
    rewrite Ha. reflexivity. }
  split; [eapply same_market_trans; eassumption|].
  split.
  { intros [].
    - (* buy slot: the sell step leaves it alone *)
      rewrite (Hoth2 buy) by discriminate.
      destruct Hown1 as [Heq|(Hnone & o & Hslot & Hside & Hids)];
        [left; assumption|].
      right. split; [assumption|]. exists o.
      rewrite placed_ids_app, Hids. simpl. auto.
    - (* sell slot: the buy step left it alone *)
      rewrite <- (Hoth1 sell) by discriminate.
      destruct Hown2 as [Heq|(Hnone & o & Hslot & Hside & Hids)];
        [left; assumption|].
      right. split; [assumption|]. exists o.
      rewrite placed_ids_app, Hids.
      repeat split; try assumption. apply in_or_app. right. now left. }
  split; [rewrite !length_app; lia|].
  split; [apply Forall_app; split; assumption|].
  split.
  { intros Hfail.
    destruct (Hfail1 Hfail) as [Hs1 Hn1], (Hfail2 Hfail) as [Hs2 Hn2].
    split; [congruence|]. rewrite !length_app. lia. }
  { intros Hacc.
    destruct (Hacc1 Hacc) as [Hn1 Hb], (Hacc2 Hacc) as [Hn2 Hs].
    rewrite Hn1, Hn2. split; [reflexivity|].
    intros -> _. split; [|auto].
    rewrite has_order_slot, (Hoth2 buy) by discriminate.
    rewrite <- has_order_slot. auto. }
Qed.

(** A whole tick, in every case. *)
Lemma tick_total (rt : Runtime) (self : Maker) (w : World) :
  exists r w' evs,
    _tick rt self w = (r, w')
    /\ trace w' = (trace w ++ evs)%list
    /\ cancelled_ids evs = tick_cancels self (self_state w)
    /\ submitted evs = tick_quotes self (self_state w)
    /\ same_market (self_state w) (self_state w')
    /\ (forall sd,
          slot (self_state w') sd = slot (self_state w) sd
          \/ (slot (self_state w) sd = None
              /\ exists o, slot (self_state w') sd = Some o
                           /\ side o = sd
                           /\ In (cl_ord_id o) (placed_ids evs))
          \/ (slot (self_state w') sd = None
              /\ exists o,
                   In o (get_orders_to_cancel
                           (cancel_distance_bps (config self))
                           (rebalance_distance_bps (config self))
                           (self_state w))
                   /\ side o = sd))
    /\ (length (notifications evs)
        <= length (cancelled_ids evs) + length (submitted evs))%nat
    /\ Forall (fun n => snd n = "high") (notifications evs)
    /\ (always_fails (client self) ->
        self_state w' = self_state w
        /\ length (notifications evs)
           = (length (cancelled_ids evs) + length (submitted evs))%nat)
    /\ (always_accepts (client self) ->
        notifications evs = []
        /\ (r = Ok tt -> step_of self (self_state w) = placing ->
            has_order buy (self_state w') = true
            /\ has_order sell (self_state w') = true)
        /\ (forall o,
              In o (get_orders_to_cancel
                      (cancel_distance_bps (config self))
                      (rebalance_distance_bps (config self))
                      (self_state w)) ->
              step_of self (self_state w) = cancelling ->
              slot (self_state w') (side o) = None)).
Proof.
  unfold _tick, bind, get_state, ret, tick_cancels, tick_quotes, step_of.
  simpl.
  destruct (last_price (self_state w)) as [last|] eqn:Hlast.
  2:{ exists (Ok tt), w, []. rewrite app_nil_r. simpl.
      repeat split; auto using same_market_refl; discriminate. }
  destruct (fge (fabs (position (self_state w)))
              (max_position_btc (config self))).
  { exists (Ok tt), w, []. rewrite app_nil_r. simpl.
    repeat split; auto using same_market_refl; discriminate. }
  destruct (get_orders_to_cancel (cancel_distance_bps (config self))
              (rebalance_distance_bps (config self)) (self_state w))
    as [|o rest] eqn:Hlist.
  - (* nothing to cancel *)
    destruct (float_gt_int (get_volatility_bps (self_state w))
                (volatility_threshold_bps (config self))).
    { exists (Ok tt), w, []. rewrite app_nil_r. simpl.
      repeat split; auto using same_market_refl; try discriminate;
        contradiction. }
    destruct (place_missing_total rt self w)
      as (r & w' & evs & Hrun & Htr & Hc & Hsub & Hm & Hsl & Hlen & Hhigh
          & Hfail & Hacc).
    exists r, w', evs. rewrite Hc. simpl.
    split; [assumption|]. split; [assumption|]. split; [reflexivity|].
    split; [assumption|]. split; [assumption|].
    split; [intros sd; destruct (Hsl sd); auto|].
    split; [assumption|]. split; [assumption|]. split; [assumption|].
    intros Ha. destruct (Hacc Ha) as [Hn Hboth].
    split; [assumption|]. split; [|contradiction].
    intros Hr _. apply Hboth; [assumption|congruence].
  - (* the cancel loop *)
    destruct (cancel_loop_total rt self (o :: rest) w)
      as (w' & evs & Hrun & Htr & _ & Hc & Hsub & _ & Hm & Hsl & Hlen
          & Hhigh & Hfail & Hacc).
    exists (Ok tt), w', evs.
    split.
    { change (match for_each (o :: rest) (cancel_one rt self) w with
              | (Ok _, w'0) => (Ok tt, w'0)
              | (Raise e, w'0) => (Raise e, w'0)
              end = (Ok tt, w')).
      now rewrite Hrun. }
    split; [assumption|]. split; [assumption|]. split; [assumption|].
    split; [assumption|].
    split; [intros sd; destruct (Hsl sd); auto|].
    rewrite Hc, Hsub, length_map. simpl in *.
    split; [lia|]. split; [assumption|].
    split.
    { intros Hf. destruct (Hfail Hf). split; [assumption|lia]. }
    intros Ha. destruct (Hacc Ha) as [Hn Hclear].
    split; [assumption|]. split; [discriminate|]. auto.
Qed.

(** *** What every tick keeps *)

(** X1.  Whatever a tick does, and also when it raises: the trace is only
    extended, and the position, the last price and the price window are
    untouched.  Each slot is either unchanged, or was empty and now holds an
    order of its side whose client id was submitted in this tick, or is now
    empty and an order on the tick's cancel list has that side. *)
Theorem tick_changes_only_slots (rt : Runtime) (self : Maker) (w : World) :
  exists r w' evs,
    _tick rt self w = (r, w')
    /\ trace w' = (trace w ++ evs)%list
    /\ position (self_state w') = position (self_state w)
    /\ last_price (self_state w') = last_price (self_state w)
    /\ price_history (self_state w') = price_history (self_state w)
    /\ forall sd,
         slot (self_state w') sd = slot (self_state w) sd
         \/ (slot (self_state w) sd = None
             /\ exists o, slot (self_state w') sd = Some o
                          /\ side o = sd
                          /\ In (cl_ord_id o) (placed_ids evs))
         \/ (slot (self_state w') sd = None
             /\ exists o,
                  In o (get_orders_to_cancel
                          (cancel_distance_bps (config self))
                          (rebalance_distance_bps (config self))
                          (self_state w))
                  /\ side o = sd).
Proof.
  destruct (tick_total rt self w)
    as (r & w' & evs & Hrun & Htr & _ & _ & (Hp & Hl & Hh) & Hsl & _).
  exists r, w', evs. auto 10.
Qed.

Lemma quote_side (self : Maker) (sd : Side) (last : float)
  (q : string * string) :
  quote self sd last = Ok q -> fst q = side_str sd.
Proof.
  unfold quote.
  destruct (int_truediv _ _); simpl; [|discriminate].
  destruct (align _ _ _); simpl; [|discriminate].
  intros H. injection H as <-. reflexivity.
Qed.

(** The sides quoted from a state, in order: a buy only if the buy slot is
    empty, a sell only if the sell slot is empty, each at most once. *)
Lemma quotes_of_sides (self : Maker) (s : State) :
  exists b c : bool,
    map fst (quotes_of self s)
    = ((if b then ["buy"] else []) ++ (if c then ["sell"] else []))%list
    /\ (b = true -> has_order buy s = false)
    /\ (c = true -> has_order sell s = false).
Proof.
  unfold quotes_of.
  destruct (last_price s) as [last|];
    [|exists false, false; repeat split; discriminate].
  destruct (int_truediv _ _);
    [|exists false, false; repeat split; discriminate].
  assert (Hsell : exists c : bool,
            map fst (if has_order sell s then []
                     else match quote self sell last with
                          | Ok q => [q]
                          | Raise _ => []
                          end)
            = (if c then ["sell"] else [])
            /\ (c = true -> has_order sell s = false)).
  { destruct (has_order sell s);
      [exists false; split; [reflexivity|discriminate]|].
    destruct (quote self sell last) as [q|] eqn:Hq;
      [|exists false; split; [reflexivity|discriminate]].
    exists true. simpl. now rewrite (quote_side _ _ _ _ Hq). }
  destruct Hsell as (c & Hc & Hcs).
  destruct (has_order buy s);
    [exists false, c; repeat split; [assumption|discriminate|assumption]|].
  destruct (quote self buy last) as [q|] eqn:Hq;
    [|exists false, false; repeat split; discriminate].
  exists true, c. simpl. rewrite Hc, (quote_side _ _ _ _ Hq). auto.
Qed.

(** X2.  A tick never both cancels and places.  What it submits is at most
    one buy order followed by at most one sell order, and it submits on a
    side only if that side's slot was empty when the tick began. *)
Theorem tick_cancels_or_places (rt : Runtime) (self : Maker) (w : World) :
  exists r w' evs,
    _tick rt self w = (r, w')
    /\ trace w' = (trace w ++ evs)%list
    /\ (cancelled_ids evs = [] \/ submitted evs = [])
    /\ exists b c : bool,
         map fst (submitted evs)
         = ((if b then ["buy"] else []) ++ (if c then ["sell"] else []))%list
         /\ (b = true -> has_order buy (self_state w) = false)
         /\ (c = true -> has_order sell (self_state w) = false).
Proof.
  destruct (tick_total rt self w)
    as (r & w' & evs & Hrun & Htr & Hc & Hs & _).
  exists r, w', evs. repeat (split; [assumption|]).
  rewrite Hc, Hs. unfold tick_cancels, tick_quotes.
  destruct (step_of self (self_state w));
    try (split; [auto|]; exists false, false; repeat split; discriminate).
  split; [auto|]. apply quotes_of_sides.
Qed.

(** X3.  A book that is quoted on both sides with nothing to cancel: the
    tick makes no call, sends no alert and changes nothing, whatever the
    volatility; it returns normally as soon as [order_distance_bps / 10000]
    can be computed. *)
Theorem tick_idle_when_quoted (rt : Runtime) (self : Maker) (w : World)
  (p : float) :
  last_price (self_state w) = Some p ->
  fge (fabs (position (self_state w))) (max_position_btc (config self)) = false ->
  get_orders_to_cancel (cancel_distance_bps (config self))
    (rebalance_distance_bps (config self)) (self_state w) = [] ->
  has_order buy (self_state w) = true ->
  has_order sell (self_state w) = true ->
  snd (_tick rt self w) = w
  /\ forall q,
       int_truediv (order_distance_bps (config self)) 10000 = Ok q ->
       _tick rt self w = (Ok tt, w).
Proof.
  intros Hprice Hpos Hlist Hb Hs.
  unfold _tick, _place_missing_orders, bind, get_state, eval, ret. simpl.
  rewrite Hprice, Hpos, Hlist.
  destruct (float_gt_int _ _); [split; reflexivity|].
  rewrite Hprice.
  destruct (int_truediv _ _) as [q|e]; simpl.
  - rewrite Hb. simpl. rewrite Hs. split; reflexivity.
  - split; [reflexivity|]. discriminate.
Qed.

Lemma tick_plan_config (self1 self2 : Maker) (s : State) :
  config self1 = config self2 ->
  tick_cancels self1 s = tick_cancels self2 s
  /\ tick_quotes self1 s = tick_quotes self2 s.
Proof.
  intros Hcfg.
  unfold tick_cancels, tick_quotes, step_of, quotes_of, quote.
  now rewrite Hcfg.
Qed.

(** X4.  Which cancellations and which (side, price) orders a tick sends is
    decided by the engine's state and configuration alone: two ticks from
    the same state with the same configuration send the same ones, whatever
    the exchange answers, whatever the notification setup, the client ids
    drawn and the history. *)
Theorem tick_calls_depend_on_state_only (rt1 rt2 : Runtime)
  (self1 self2 : Maker) (w1 w2 : World) :
  config self1 = config self2 ->
  self_state w1 = self_state w2 ->
  exists r1 w1' evs1 r2 w2' evs2,
    _tick rt1 self1 w1 = (r1, w1')
    /\ trace w1' = (trace w1 ++ evs1)%list
    /\ _tick rt2 self2 w2 = (r2, w2')
    /\ trace w2' = (trace w2 ++ evs2)%list
    /\ cancelled_ids evs1 = cancelled_ids evs2
    /\ submitted evs1 = submitted evs2.
Proof.
  intros Hcfg Hst.
  destruct (tick_total rt1 self1 w1)
    as (r1 & w1' & evs1 & Hrun1 & Htr1 & Hc1 & Hs1 & _).
  destruct (tick_total rt2 self2 w2)
    as (r2 & w2' & evs2 & Hrun2 & Htr2 & Hc2 & Hs2 & _).
  exists r1, w1', evs1, r2, w2', evs2.
  repeat (split; [assumption|]).
  destruct (tick_plan_config self1 self2 (self_state w2) Hcfg) as [Hc Hs].
  rewrite Hc1, Hs1, Hc2, Hs2, Hst. auto.
Qed.

(** X5.  Alerts follow failures.  In every tick each notification has
    priority "high" and there are at most as many notifications as gateway
    calls.  Against an exchange on which every call fails, every call is
    followed by its alert and the tick leaves the state exactly as it was. *)
Theorem tick_alerts_follow_failures (rt : Runtime) (self : Maker)
  (w : World) :
  exists r w' evs,
    _tick rt self w = (r, w')
    /\ trace w' = (trace w ++ evs)%list
    /\ Forall (fun n => snd n = "high") (notifications evs)
    /\ (length (notifications evs)
        <= length (cancelled_ids evs) + length (submitted evs))%nat
    /\ (always_fails (client self) ->
        self_state w' = self_state w
        /\ length (notifications evs)
           = (length (cancelled_ids evs) + length (submitted evs))%nat).
Proof.
  destruct (tick_total rt self w)
    as (r & w' & evs & Hrun & Htr & _ & _ & _ & _ & Hlen & Hhigh & Hfail & _).
  exists r, w', evs. auto.
Qed.

(** X6.  Against an exchange that accepts every order and every
    cancellation, a tick sends no notification; a tick that reaches the
    placement step and returns leaves both sides quoted; a tick in the
    cancel step empties the slot of the side of every listed order. *)
Theorem tick_on_healthy_exchange (rt : Runtime) (self : Maker) (w : World) :
  always_accepts (client self) ->
  exists r w' evs,
    _tick rt self w = (r, w')
    /\ trace w' = (trace w ++ evs)%list
    /\ notifications evs = []
    /\ (r = Ok tt -> step_of self (self_state w) = placing ->
        has_order buy (self_state w') = true
        /\ has_order sell (self_state w') = true)
    /\ (step_of self (self_state w) = cancelling ->
        forall o,
          In o (get_orders_to_cancel (cancel_distance_bps (config self))
                  (rebalance_distance_bps (config self)) (self_state w)) ->
          slot (self_state w') (side o) = None).
Proof.
  intros Hacc.
  destruct (tick_total rt self w)
    as (r & w' & evs & Hrun & Htr & _ & _ & _ & _ & _ & _ & _ & Ha).
  destruct (Ha Hacc) as (Hn & Hboth & Hclear).
  exists r, w', evs. repeat (split; [assumption|]). auto.
Qed.

(** X7.  Retry by repetition.  If every gateway call of a tick fails, the
    next tick starts from the same state and therefore sends the same
    cancellations and the same (side, price) orders again. *)
Theorem tick_retries_after_failure (rt : Runtime) (self : Maker) (w : World) :
  always_fails (client self) ->
  exists r1 w1 evs1 r2 w2 evs2,
    _tick rt self w = (r1, w1)
    /\ trace w1 = (trace w ++ evs1)%list
    /\ _tick rt self w1 = (r2, w2)
    /\ trace w2 = (trace w1 ++ evs2)%list
    /\ self_state w2 = self_state w
    /\ cancelled_ids evs2 = cancelled_ids evs1
    /\ submitted evs2 = submitted evs1.
Proof.
  intros Hfail.
  destruct (tick_total rt self w)
    as (r1 & w1 & evs1 & Hrun1 & Htr1 & Hc1 & Hs1 & _ & _ & _ & _ & Hf1 & _).
  destruct (tick_total rt self w1)
    as (r2 & w2 & evs2 & Hrun2 & Htr2 & Hc2 & Hs2 & _ & _ & _ & _ & Hf2 & _).
  destruct (Hf1 Hfail) as [Hst1 _], (Hf2 Hfail) as [Hst2 _].
  exists r1, w1, evs1, r2, w2, evs2.
  repeat (split; [assumption|]).
  split; [congruence|].
  rewrite Hc1, Hs1, Hc2, Hs2, Hst1. auto.
Qed.

(** *** The volatility gate, on the trace *)

Lemma quote_needs_ratio (self : Maker) (sd : Side) (last : float)
  (q : string * string) :
  quote self sd last = Ok q ->
  exists x, int_truediv (order_distance_bps (config self)) 10000 = Ok x.
Proof.
  unfold quote.
  destruct (int_truediv _ _) as [x|]; simpl; [eauto|discriminate].
Qed.

Lemma quotes_of_buy (self : Maker) (s : State) (last : float)
  (q : string * string) :
  last_price s = Some last ->
  has_order buy s = false ->
  quote self buy last = Ok q ->
  hd_error (quotes_of self s) = Some q.
Proof.
  intros Hlast Hb Hq. unfold quotes_of.
  destruct (quote_needs_ratio _ _ _ _ Hq) as [x Hx].
  rewrite Hlast, Hx, Hb, Hq. reflexivity.
Qed.

Lemma quotes_of_sell (self : Maker) (s : State) (last : float)
  (q : string * string) :
  last_price s = Some last ->
  has_order sell s = false ->
  quote self sell last = Ok q ->
  has_order buy s = true \/ (exists qb, quote self buy last = Ok qb) ->
  hd_error (rev (quotes_of self s)) = Some q.
Proof.
  intros Hlast Hs Hq Hbuy. unfold quotes_of.
  destruct (quote_needs_ratio _ _ _ _ Hq) as [x Hx].
  rewrite Hlast, Hx, Hs, Hq.
  destruct (has_order buy s); [reflexivity|].
  destruct Hbuy as [|[qb ->]]; [discriminate|reflexivity].
Qed.

(** C7.  In a tick that reaches the volatility step (a last price exists,
    the position is under the limit, the cancel list is empty): if
    [volatility_bps] is strictly above [volatility_threshold_bps] the tick
    returns with the world untouched, so nothing is placed.  Otherwise, and
    in particular when the two are equal, the tick is the placement step
    and the orders are on its trace: the tick cancels nothing and submits
    the quotes of the empty slots; the buy order is the first order sent
    whenever the buy slot is empty and its price can be computed, and the
    sell order is the last order sent whenever the sell slot is empty, its
    price can be computed and the buy side, if it was placed, had a price
    too. *)
Theorem tick_volatility_gate (rt : Runtime) (self : Maker) (w : World)
  (p : float) :
  last_price (self_state w) = Some p ->
  fge (fabs (position (self_state w))) (max_position_btc (config self)) = false ->
  get_orders_to_cancel (cancel_distance_bps (config self))
    (rebalance_distance_bps (config self)) (self_state w) = [] ->
  let volatility := get_volatility_bps (self_state w) in
  let threshold := volatility_threshold_bps (config self) in
  (float_gt_int volatility threshold = true ->
   _tick rt self w = (Ok tt, w))
  /\ (float_gt_int volatility threshold = false
      \/ float_eq_int volatility threshold = true ->
      _tick rt self w = _place_missing_orders rt self w
      /\ exists r w' evs,
           _tick rt self w = (r, w')
           /\ trace w' = (trace w ++ evs)%list
           /\ cancelled_ids evs = []
           /\ submitted evs = quotes_of self (self_state w)
           /\ (forall q,
                 has_order buy (self_state w) = false ->
                 quote self buy p = Ok q ->
                 hd_error (submitted evs) = Some q)
           /\ (forall q,
                 has_order sell (self_state w) = false ->
                 quote self sell p = Ok q ->
                 has_order buy (self_state w) = true
                 \/ (exists qb, quote self buy p = Ok qb) ->
                 hd_error (rev (submitted evs)) = Some q)).
Proof.
  intros Hprice Hpos Hlist volatility threshold.
  assert (Hgate : _tick rt self w =
                  if float_gt_int volatility threshold then (Ok tt, w)
                  else _place_missing_orders rt self w).
  { unfold _tick, bind, get_state, ret. simpl.
    rewrite Hprice, Hpos, Hlist. fold volatility threshold.
    now destruct (float_gt_int volatility threshold). }
  split.
  - intros H. now rewrite Hgate, H.
  - intros H.
    assert (Hgt : float_gt_int volatility threshold = false).
    { destruct H as [H|H]; [exact H|exact (float_eq_not_gt _ _ H)]. }
    split; [now rewrite Hgate, Hgt|].
    assert (Hstep : step_of self (self_state w) = placing).
    { unfold step_of. rewrite Hprice, Hpos, Hlist.
      fold volatility threshold. now rewrite Hgt. }
    destruct (tick_total rt self w)
      as (r & w' & evs & Hrun & Htr & Hc & Hs & _).
    unfold tick_cancels in Hc. unfold tick_quotes in Hs.
    rewrite Hstep in Hc, Hs.
    exists r, w', evs.
    split; [assumption|]. split; [assumption|]. split; [assumption|].
    split; [assumption|]. rewrite Hs. split.
    + intros q Hb Hq. exact (quotes_of_buy self _ p q Hprice Hb Hq).
    + intros q Hsl Hq Hbuy.
      exact (quotes_of_sell self _ p q Hprice Hsl Hq Hbuy).
Qed.

(** *** Prices that are not numbers *)

Lemma fmul_not_finite (x y : float) :
  is_finite x = false -> is_finite (fmul x y) = false.
Proof. destruct x as [| | |]; destruct y as [| | |]; simpl; congruence. Qed.

Lemma align_not_finite (sd : Side) (x : float) (symbol_ : string) :
  is_finite x = false ->
  exists e, align sd x (tick_size symbol_) = Raise e
            /\ (exn_class e = "ValueError" \/ exn_class e = "OverflowError").
Proof.
  unfold tick_size.
  destruct x as [| | |]; simpl; try discriminate; intros _;
    destruct (String.prefix "BTC" symbol_), sd; simpl; eauto.
Qed.

(** X8.  A last price that is NaN or infinite.  When the tick reaches the
    placement step with a side to quote, it raises ([ValueError] for NaN,
    [OverflowError] for an infinity, or the error of the distance ratio)
    before the gateway is asked: nothing is added to the trace and the
    state is as it was. *)
Theorem tick_raises_on_non_finite_price (rt : Runtime) (self : Maker)
  (w : World) (last : float) :
  last_price (self_state w) = Some last ->
  is_finite last = false ->
  step_of self (self_state w) = placing ->
  has_order buy (self_state w) = false
  \/ has_order sell (self_state w) = false ->
  exists e w',
    _tick rt self w = (Raise e, w')
    /\ trace w' = trace w
    /\ self_state w' = self_state w.
Proof.
  intros Hlast Hinf Hstep Hside.
  assert (Htick : _tick rt self w = _place_missing_orders rt self w).
  { unfold step_of in Hstep. unfold _tick, bind, get_state, ret. simpl.
    rewrite Hlast in *.
    destruct (fge _ _); [discriminate|].
    destruct (get_orders_to_cancel _ _ _); [|discriminate].
    destruct (float_gt_int _ _); [discriminate|reflexivity]. }
  rewrite Htick.
  unfold _place_missing_orders, bind, get_state, eval. simpl.
  rewrite Hlast.
  destruct (int_truediv _ _) as [q|e]; simpl; [|eauto].
  destruct (align_not_finite buy (fmul last (fsub float_1 q))
              (symbol (config self)) (fmul_not_finite _ _ Hinf))
    as (eb & Hb & _).
  destruct (align_not_finite sell (fmul last (fadd float_1 q))
              (symbol (config self)) (fmul_not_finite _ _ Hinf))
    as (es & Hs & _).
  destruct (has_order buy (self_state w)) eqn:Hhb; simpl.
  - destruct Hside as [Hcontra|Hhs]; [discriminate|].
    rewrite Hhs. simpl.
    rewrite (place_order_raise rt self sell _ w es Hs). eauto.
  - rewrite (place_order_raise rt self buy _ w eb Hb). eauto.
Qed.

(** *** The client id, from placement to cancellation *)

Lemma set_order_undo (sd : Side) (o : OpenOrder) (s : State) :
  slot s sd = None ->
  set_order sd None (set_order sd (Some o) s) = s.
Proof.
  destruct s, sd; simpl; intros ->; reflexivity.
Qed.

(** X9.  The id recorded is the id submitted, and it is the id cancelled.
    After an accepted placement the slot holds an order whose client id is
    the one sent with [new_order]; running the cancel step on that order
    asks the exchange to cancel this very id; and if that cancellation
    succeeds on a slot that was empty before the placement, the state is
    back to what it was before the order was placed. *)
Theorem client_id_round_trip (rt : Runtime) (self : Maker) (sd : Side)
  (price_ aligned : float) (w : World) :
  align sd price_ (tick_size (symbol (config self))) = Ok aligned ->
  accepted (placement_reply self sd aligned (client_id rt sd w) w) = true ->
  exists w1 evs1 o w2 evs2,
    _place_order rt self sd price_ w = (Ok tt, w1)
    /\ trace w1 = (trace w ++ evs1)%list
    /\ slot (self_state w1) sd = Some o
    /\ placed_ids evs1 = [cl_ord_id o]
    /\ cancel_one rt self o w1 = (Ok tt, w2)
    /\ trace w2 = (trace w1 ++ evs2)%list
    /\ cancelled_ids evs2 = placed_ids evs1
    /\ (raised (cancel_order (client self) (trace w1) (cl_ord_id o)) = false ->
        slot (self_state w2) sd = None
        /\ (slot (self_state w) sd = None -> self_state w2 = self_state w)).
Proof.
  intros Halign Hacc.
  destruct (place_order_total rt self sd price_ w)
    as (r & w1 & evs1 & Hrun1 & Htr1 & _ & _ & Hcase).
  rewrite Halign, Hacc in Hcase.
  destruct Hcase as (-> & _ & Hids & Hst1 & _).
  set (o := {| cl_ord_id := client_id rt sd w; side := sd;
               price := price_; qty := order_size_btc (config self) |}) in *.
  destruct (cancel_one_total rt self o w1)
    as (w2 & evs2 & Hrun2 & Htr2 & _ & Hc2 & _ & _ & Hst2).
  exists w1, evs1, o, w2, evs2.
  repeat (split; [assumption|]).
  split; [rewrite Hst1; apply set_order_slot|].
  split; [assumption|]. split; [assumption|]. split; [assumption|].
  split; [rewrite Hc2, Hids; reflexivity|].
  destruct (cancel_order _ _ _); simpl; [|discriminate].
  intros _. destruct Hst2 as [-> _]. rewrite Hst1.
  split; [apply set_order_slot|]. apply set_order_undo.
Qed.

(* ===================================================================== *)
(** ** Start-up reconciliation *)
(* ===================================================================== *)

Section InitializeFacts.

Variable float_of_str : string -> result float.
Variable self : Maker.
Variable api : StandXQueries.

Lemma last_of_side_cons (sd : Side) (o : OrderInfo) (rest : list OrderInfo) :
  last_of_side sd (o :: rest) =
  match last_of_side sd rest with
  | Some x => Some x
  | None => if String.eqb (order_side o) (side_str sd) then Some o else None
  end.
Proof.
  unfold last_of_side. simpl.
  induction (rev rest) as [|x xs IH]; simpl.
  - now destruct (String.eqb _ _).
  - destruct (String.eqb (order_side x) (side_str sd)); [reflexivity|exact IH].
Qed.

(** Taking one order into a slot: either a conversion raises and nothing
    changes, or the slot holds the converted order. *)
Lemma adopt_total (sd : Side) (o : OrderInfo) (w : World) :
  match adopted float_of_str sd o with
  | Some order =>
      adopt float_of_str sd o w
      = (Ok tt, {| self_state := set_order sd (Some order) (self_state w);
                   trace := trace w;
                   uuid_calls := uuid_calls w |})
  | None => exists e, adopt float_of_str sd o w = (Raise e, w)
  end.
Proof.
  unfold adopted, adopt, bind, eval, update_state.
  destruct (float_ float_of_str (order_price o)); simpl; [|eauto].
  destruct (float_ float_of_str (order_qty o)); simpl; [reflexivity|eauto].
Qed.

(** The loop of [initialize] over the open orders. *)
Lemma adopt_loop (orders : list OrderInfo) :
  forall w : World,
  exists r w',
    for_each orders
      (fun order =>
         if String.eqb (order_side order) "buy"
         then adopt float_of_str buy order
         else if String.eqb (order_side order) "sell"
              then adopt float_of_str sell order
              else ret tt) w = (r, w')
    /\ trace w' = trace w
    /\ uuid_calls w' = uuid_calls w
    /\ same_market (self_state w) (self_state w')
    /\ (r = Ok tt ->
        forall sd,
          slot (self_state w') sd =
          match last_of_side sd orders with
          | Some o => adopted float_of_str sd o
          | None => slot (self_state w) sd
          end).
Proof.
  induction orders as [|o rest IH]; intros w; simpl.
  - exists (Ok tt), w. repeat split. 
  - unfold bind.
    assert (Hstep : exists r1 w1,
      (if String.eqb (order_side o) "buy" then adopt float_of_str buy o
       else if String.eqb (order_side o) "sell"
            then adopt float_of_str sell o else ret tt) w = (r1, w1)
      /\ trace w1 = trace w /\ uuid_calls w1 = uuid_calls w
      /\ same_market (self_state w) (self_state w1)
      /\ (r1 = Ok tt ->
          forall sd,
            slot (self_state w1) sd =
            if String.eqb (order_side o) (side_str sd)
            then adopted float_of_str sd o
            else slot (self_state w) sd)).
    { destruct (String.eqb (order_side o) "buy") eqn:Hb.
      - apply String.eqb_eq in Hb.
        pose proof (adopt_total buy o w) as Ha.
        destruct (adopted float_of_str buy o) as [order|] eqn:Had.
        + rewrite Ha. eexists _, _. split; [reflexivity|]. simpl.
          repeat split; try apply same_market_set_order.
          intros _ []; simpl; rewrite Hb; simpl; [congruence|reflexivity].
        + destruct Ha as [e ->]. eexists _, _.
          repeat split; discriminate.
      - destruct (String.eqb (order_side o) "sell") eqn:Hs.
        + pose proof (adopt_total sell o w) as Ha.
          destruct (adopted float_of_str sell o) as [order|] eqn:Had.
          * rewrite Ha. eexists _, _. split; [reflexivity|]. simpl.
            repeat split; try apply same_market_set_order.
            intros _ []; simpl; rewrite ?Hb, ?Hs; congruence.
          * destruct Ha as [e ->]. eexists _, _.
            repeat split; discriminate.
        + exists (Ok tt), w. repeat split.
          intros _ []; simpl; rewrite ?Hb, ?Hs; reflexivity. }
    destruct Hstep as (r1 & w1 & Hrun1 & Htr1 & Hu1 & Hm1 & Hsl1).
    rewrite Hrun1. destruct r1 as [[]|e].
    + destruct (IH w1) as (r & w' & Hrun & Htr & Hu & Hm & Hsl).
      exists r, w'. rewrite Hrun.
      split; [reflexivity|]. split; [congruence|]. split; [congruence|].
      split; [eapply same_market_trans; eassumption|].
      intros Hr sd. rewrite (Hsl Hr sd), last_of_side_cons.
      destruct (last_of_side sd rest); [reflexivity|].
      rewrite (Hsl1 eq_refl sd).
      now destruct (String.eqb (order_side o) (side_str sd)).
    + exists (Raise e), w1. split; [reflexivity|].
      split; [assumption|]. split; [assumption|]. split; [assumption|].
      discriminate.
Qed.

(** X10.  What a successful [initialize] leaves behind.  Both queries
    answered; the position is the quantity of the first position reported,
    or 0.0 when none is; each slot holds the last open order reported for
    its side, converted with [float()], and a slot for which no order was
    reported keeps what it held; orders of any other side are ignored.
    The trace, the last price and the price window are untouched. *)
Theorem initialize_reconciles (w w' : World) :
  initialize float_of_str self api w = (Ok tt, w') ->
  exists positions orders,
    query_positions api (trace w) (symbol (config self)) = Ok positions
    /\ query_open_orders api (trace w) (symbol (config self)) = Ok orders
    /\ trace w' = trace w
    /\ position (self_state w') =
       match positions with
       | p :: _ => position_qty p
       | [] => S754_zero false
       end
    /\ last_price (self_state w') = last_price (self_state w)
    /\ price_history (self_state w') = price_history (self_state w)
    /\ forall sd,
         slot (self_state w') sd =
         match last_of_side sd orders with
         | Some o => adopted float_of_str sd o
         | None => slot (self_state w) sd
         end.
Proof.
  unfold initialize, bind, ask, update_state.
  destruct (query_positions api (trace w) (symbol (config self)))
    as [positions|e]; [|discriminate].
  destruct positions as [|p ps]; simpl;
    (destruct (query_open_orders api (trace w) (symbol (config self)))
       as [orders|e]; [|discriminate]);
    edestruct (adopt_loop orders)
      as (r & w2 & Hrun & Htr & Hu & (Hp & Hl & Hh) & Hsl);
    rewrite Hrun; intros Heq; injection Heq as -> ->;
    eexists _, orders; simpl in *;
    (split; [reflexivity|]); (split; [reflexivity|]);
    (split; [assumption|]); (split; [assumption|]);
    (split; [assumption|]); (split; [assumption|]);
    intros sd; rewrite (Hsl eq_refl sd);
    (destruct (last_of_side sd orders); [reflexivity|]); now destruct sd.
Qed.

(** X11.  What a failing [initialize] leaves behind.  In every case the
    trace, the last price and the price window are untouched.  If the
    position query raises, the exception leaves [initialize] with the state
    unchanged.  If the position query answers and the order query raises,
    the exception leaves [initialize] with the position already overwritten
    and the slots as they were. *)
Theorem initialize_failure (w : World) :
  (exists r w',
     initialize float_of_str self api w = (r, w')
     /\ trace w' = trace w
     /\ last_price (self_state w') = last_price (self_state w)
     /\ price_history (self_state w') = price_history (self_state w))
  /\ (forall e,
        query_positions api (trace w) (symbol (config self)) = Raise e ->
        initialize float_of_str self api w = (Raise e, w))
  /\ (forall positions e,
        query_positions api (trace w) (symbol (config self)) = Ok positions ->
        query_open_orders api (trace w) (symbol (config self)) = Raise e ->
        exists w',
          initialize float_of_str self api w = (Raise e, w')
          /\ position (self_state w') =
             match positions with
             | p :: _ => position_qty p
             | [] => S754_zero false
             end
          /\ forall sd, slot (self_state w') sd = slot (self_state w) sd).
Proof.
  unfold initialize, bind, ask, update_state.
  split; [|split].
  - destruct (query_positions api (trace w) (symbol (config self)))
      as [positions|e]; [|eauto 7].
    destruct positions as [|p ps]; simpl;
      (destruct (query_open_orders api _ _) as [orders|e];
       [|eexists _, _; split; [reflexivity|]; simpl; auto]);
      edestruct (adopt_loop orders)
        as (r & w2 & Hrun & Htr & Hu & (Hp & Hl & Hh) & Hsl);
      rewrite Hrun; exists r, w2; simpl in *; auto.
  - intros e ->. reflexivity.
  - intros positions e -> .
    destruct positions as [|p ps]; simpl; intros ->;
      eexists; (split; [reflexivity|]); simpl; split; try reflexivity;
      intros []; reflexivity.
Qed.

End InitializeFacts.

(* ===================================================================== *)
(** ** More of the configuration loader *)
(* ===================================================================== *)

Import config_file.

(** X12.  Exactly which dicts load, and what is loaded.  [from_dict]
    returns a configuration if and only if the wallet section is a mapping
    holding [api_token] or [private_key] and the seven required fields are
    present; every field of the result is then the dict's own value.  The
    wallet's [chain] defaults to "bsc" and its three other fields to
    [None].  [rebalance_distance_bps] is 20 only when the key is absent: a
    value that is present is loaded as it is, a YAML null included. *)
Theorem from_dict_loads (data : dict) (c : Config value value value) :
  from_dict data = Ok c <->
  exists wallet_data : dict,
    data !! "wallet" = Some (VDict wallet_data)
    /\ (is_Some (wallet_data !! "api_token")
        \/ is_Some (wallet_data !! "private_key"))
    /\ wallet c =
       {| chain := dict_get wallet_data "chain" (VStr "bsc");
          private_key := dict_get wallet_data "private_key" VNone;
          api_token := dict_get wallet_data "api_token" VNone;
          api_secret := dict_get wallet_data "api_secret" VNone |}
    /\ data !! "symbol" = Some (symbol c)
    /\ data !! "order_distance_bps" = Some (order_distance_bps c)
    /\ data !! "cancel_distance_bps" = Some (cancel_distance_bps c)
    /\ data !! "order_size_btc" = Some (order_size_btc c)
    /\ data !! "max_position_btc" = Some (max_position_btc c)
    /\ data !! "volatility_window_sec" = Some (volatility_window_sec c)
    /\ data !! "volatility_threshold_bps" = Some (volatility_threshold_bps c)
    /\ (data !! "rebalance_distance_bps" = None ->
        rebalance_distance_bps c = VInt 20)
    /\ (forall v, data !! "rebalance_distance_bps" = Some v ->
        rebalance_distance_bps c = v).
Proof.
  split.
  - unfold from_dict, getitem.
    destruct (data !! "wallet") as [wallet_value|]; [|discriminate]. simpl.
    destruct wallet_value as [| | | |s|l|wallet_data]; simpl;
      try discriminate;
      try (destruct (str_contains "api_token" s); simpl;
           [|destruct (str_contains "private_key" s); simpl]; discriminate);
      try (destruct (existsb _ l); simpl;
           [|destruct (existsb _ l); simpl]; discriminate).
    intros H. exists wallet_data. split; [reflexivity|].
    assert (Hcred : is_Some (wallet_data !! "api_token")
                    \/ is_Some (wallet_data !! "private_key")).
    { destruct (wallet_data !! "api_token"); [left; eauto|].
      destruct (wallet_data !! "private_key"); [right; eauto|].
      simpl in H. discriminate. }
    split; [assumption|].
    assert (Hgate :
      (if negb match wallet_data !! "api_token" with
               | Some _ => true | None => false end
       then Ok (negb match wallet_data !! "private_key" with
                     | Some _ => true | None => false end)
       else Ok false) = Ok false).
    { destruct Hcred as [[t ->]|[k ->]]; simpl;
        [|destruct (wallet_data !! "api_token")]; reflexivity. }
    rewrite Hgate in H. simpl in H.
    destruct (data !! "symbol"); simpl in H; [|discriminate].
    destruct (data !! "order_distance_bps"); simpl in H; [|discriminate].
    destruct (data !! "cancel_distance_bps"); simpl in H; [|discriminate].
    destruct (data !! "order_size_btc"); simpl in H; [|discriminate].
    destruct (data !! "max_position_btc"); simpl in H; [|discriminate].
    destruct (data !! "volatility_window_sec"); simpl in H; [|discriminate].
    destruct (data !! "volatility_threshold_bps"); simpl in H; [|discriminate].
    injection H as <-. simpl. unfold dict_get.
    repeat (split; [reflexivity|]).
    split; [intros ->; reflexivity|]. intros given ->. reflexivity.
  - intros (wallet_data & Hw & Hcred & Hwallet & Hsym & Hod & Hcd & Hos
            & Hmp & Hvw & Hvt & Hdef & Hval).
    unfold from_dict, getitem. rewrite Hw. simpl.
    assert (Hgate :
      (if negb match wallet_data !! "api_token" with
               | Some _ => true | None => false end
       then Ok (negb match wallet_data !! "private_key" with
                     | Some _ => true | None => false end)
       else Ok false) = Ok false).
    { destruct Hcred as [[t ->]|[k ->]]; simpl;
        [|destruct (wallet_data !! "api_token")]; reflexivity. }
    rewrite Hgate. simpl.
    rewrite Hsym, Hod, Hcd, Hos, Hmp, Hvw, Hvt. simpl.
    assert (Hreb : dict_get data "rebalance_distance_bps" (VInt 20)
                   = rebalance_distance_bps c).
    { unfold dict_get.
      destruct (data !! "rebalance_distance_bps") as [v|];
        [symmetry; now apply Hval | symmetry; now apply Hdef]. }
    rewrite Hreb. destruct c. simpl in *. now rewrite Hwallet.
Qed.

(** X13.  Which error a user gets.  Without a [wallet] key the error is
    [KeyError] on "wallet", whatever else is missing.  With a credentialed
    wallet mapping, the error is [KeyError] on the first required field, in
    the order of the dataclass, that the dict lacks. *)
Theorem from_dict_first_error (data : dict) :
  (data !! "wallet" = None -> from_dict data = Raise (KeyError "wallet"))
  /\ (forall (wallet_data : dict) (before after : list string) (f : string),
        data !! "wallet" = Some (VDict wallet_data) ->
        is_Some (wallet_data !! "api_token")
        \/ is_Some (wallet_data !! "private_key") ->
        required_fields = (before ++ f :: after)%list ->
        (forall g, In g before -> is_Some (data !! g)) ->
        data !! f = None ->
        from_dict data = Raise (KeyError f)).
Proof.
  split.
  - intros Hw. unfold from_dict, getitem. now rewrite Hw.
  - intros wallet_data before after f Hw Hcred Hsplit Hbefore Hmissing.
    unfold from_dict, getitem. rewrite Hw. simpl.
    assert (Hgate :
      (if negb match wallet_data !! "api_token" with
               | Some _ => true | None => false end
       then Ok (negb match wallet_data !! "private_key" with
                     | Some _ => true | None => false end)
       else Ok false) = Ok false).
    { destruct Hcred as [[t ->]|[k ->]]; simpl;
        [|destruct (wallet_data !! "api_token")]; reflexivity. }
    rewrite Hgate. simpl.
    unfold required_fields in Hsplit.
    repeat (destruct before as [|g before];
            [ injection Hsplit as <- _; rewrite Hmissing; reflexivity
            | let Hg := fresh "Hg" in
              injection Hsplit as Hg Hsplit; subst g;
              let v := fresh "v" in
              let E := fresh "E" in
              destruct (Hbefore _ (or_introl eq_refl)) as [v E];
              rewrite E; simpl; clear E;
              assert (Hbefore' : forall g, In g before -> is_Some (data !! g))
                by (intros g0 Hin; apply Hbefore; right; exact Hin);
              clear Hbefore; rename Hbefore' into Hbefore ]);
    destruct before; discriminate Hsplit.
Qed.

(** X14.  [load_config] returns a configuration only for a file that
    exists and decodes to a mapping that [from_dict] accepts.  A path that
    does not exist raises [FileNotFoundError] without the file being read.
    A document that decodes to anything but a mapping, such as an empty
    file (YAML null), raises [TypeError]. *)
Theorem load_config_loads (fs : FileSystem) (path : string) :
  (forall c,
     load_config fs path = Ok c <->
     path_exists fs path = true
     /\ exists d, safe_load fs path = Ok (VDict d) /\ from_dict d = Ok c)
  /\ (path_exists fs path = false ->
      load_config fs path
      = Raise (FileNotFoundError ("Config file not found: " +:+ path)))
  /\ (forall v,
        path_exists fs path = true ->
        safe_load fs path = Ok v ->
        (forall d, v <> VDict d) ->
        exists e, load_config fs path = Raise e
                  /\ exn_class e = "TypeError").
Proof.
  unfold load_config. split; [|split].
  - intros c. split.
    + destruct (path_exists fs path); simpl; [|discriminate].
      destruct (safe_load fs path) as [v|]; simpl; [|discriminate].
      destruct v; simpl; try discriminate. eauto.
    + intros (-> & d & -> & Hd). exact Hd.
  - intros ->. reflexivity.
  - intros v -> -> Hnot. simpl.
    destruct v; simpl; eauto. now destruct (Hnot d).
Qed.

(* ===================================================================== *)
(** ** The monitor's alert checks *)
(* ===================================================================== *)

Section MonitorFacts.

Context {StandXAuth : Type}.
Variable rt : monitor.Runtime.

Lemma monitor_send_notify_notified (h : list monitor.Event)
  (title message channel priority : string) :
  monitor.notified
    (monitor.send_notify rt h title message channel priority)
  = [(channel, priority)].
Proof.
  unfold monitor.send_notify. simpl.
  destruct (String.eqb _ _); [reflexivity|].
  now destruct (monitor.requests_post rt _ _ _ _ _).
Qed.

(** An equity measured against itself has not dropped. *)
Lemma no_drop_from_itself (c : float) :
  monitor.float_le_int c 0 = false ->
  fge (fdiv (fsub c c) c) monitor.EQUITY_DROP_THRESHOLD = false.
Proof.
  destruct c as [s|s| |s m e]; simpl.
  - discriminate.
  - destruct s; [discriminate|reflexivity].
  - reflexivity.
  - intros _. unfold fsub, SFsub. rewrite Z.sub_diag. reflexivity.
Qed.

(** X15.  [check_equity_alert] sends at most one notification per call, on
    channel "alert" with priority "critical", and then moves the baseline
    to the current equity and changes nothing else; with a baseline that is
    zero or negative it does nothing.  Checking again right away, with the
    equity unchanged, sends nothing and changes nothing: one drop, one
    alert. *)
Theorem equity_alert_fires_once (h h' : list monitor.Event)
  (account : monitor.AccountState StandXAuth) :
  exists account1 evs,
    monitor.check_equity_alert rt h account = (account1, evs)
    /\ ((monitor.notified evs = [] /\ account1 = account)
        \/ (monitor.notified evs = [("alert", "critical")]
            /\ account1 =
               monitor.set_initial_equity (monitor.current_equity account)
                 account))
    /\ (monitor.float_le_int (monitor.initial_equity account) 0 = true ->
        evs = [] /\ account1 = account)
    /\ monitor.check_equity_alert rt h' account1 = (account1, []).
Proof.
  unfold monitor.check_equity_alert.
  destruct (monitor.float_le_int (monitor.initial_equity account) 0) eqn:Hg.
  { exists account, []. rewrite Hg. auto. }
  destruct (fge _ monitor.EQUITY_DROP_THRESHOLD) eqn:Hdrop.
  - eexists _, _. split; [reflexivity|].
    split; [right; split; [apply monitor_send_notify_notified|reflexivity]|].
    split; [discriminate|]. simpl.
    destruct (monitor.float_le_int (monitor.current_equity account) 0) eqn:Hc;
      [reflexivity|].
    now rewrite (no_drop_from_itself _ Hc).
  - exists account, []. rewrite Hg, Hdrop. split; [reflexivity|].
    split; [auto|]. split; [discriminate|reflexivity].
Qed.

Lemma set_flag_same (account : monitor.AccountState StandXAuth) :
  monitor.set_high_position_alerted (monitor.high_position_alerted account)
    account = account.
Proof. now destruct account. Qed.

Lemma set_flag_twice (b b' : bool)
  (account : monitor.AccountState StandXAuth) :
  monitor.set_high_position_alerted b
    (monitor.set_high_position_alerted b' account)
  = monitor.set_high_position_alerted b account.
Proof. reflexivity. Qed.

(** [check_position_alert] as a function of three tests. *)
Lemma check_position_alert_cases (h : list monitor.Event)
  (account : monitor.AccountState StandXAuth) :
  let threshold :=
    fmul (order_size_btc (monitor.config_ account))
      monitor.POSITION_ALERT_MULTIPLIER in
  let alert :=
    fgt (fabs (monitor.position account)) threshold
    && negb (monitor.high_position_alerted account) in
  let low :=
    flt (fabs (monitor.position account))
        (fmul threshold monitor.float_0_5) in
  exists evs,
    monitor.check_position_alert rt h account
    = (monitor.set_high_position_alerted
         (if low then false
          else if alert then true
               else monitor.high_position_alerted account) account, evs)
    /\ monitor.notified evs = (if alert then [("info", "normal")] else [])
    /\ (alert = false -> evs = []).
Proof.
  intros threshold alert low.
  unfold monitor.check_position_alert. fold threshold. fold alert.
  destruct alert; simpl; fold threshold; fold low; destruct low;
    eexists;
    (split;
     [ first [reflexivity | rewrite set_flag_same; reflexivity]
     | split; [ first [apply monitor_send_notify_notified | reflexivity]
              | first [discriminate | reflexivity] ] ]).
Qed.

(** X16.  [check_position_alert] sends at most one notification per call,
    on channel "info" with priority "normal", and none for an account that
    is already flagged; only the flag changes.  A position below half the
    threshold clears the flag.  For a position that is not below half the
    threshold, checking again right away sends nothing and changes
    nothing: the alert is not repeated while the position stays up. *)
Theorem position_alert_latches (h h' : list monitor.Event)
  (account : monitor.AccountState StandXAuth) :
  let threshold :=
    fmul (order_size_btc (monitor.config_ account))
      monitor.POSITION_ALERT_MULTIPLIER in
  exists (flag : bool) evs,
    monitor.check_position_alert rt h account
    = (monitor.set_high_position_alerted flag account, evs)
    /\ (monitor.notified evs = []
        \/ monitor.notified evs = [("info", "normal")])
    /\ (monitor.high_position_alerted account = true ->
        monitor.notified evs = [])
    /\ (flt (fabs (monitor.position account))
            (fmul threshold monitor.float_0_5) = true ->
        flag = false)
    /\ (flt (fabs (monitor.position account))
            (fmul threshold monitor.float_0_5) = false ->
        monitor.check_position_alert rt h'
          (monitor.set_high_position_alerted flag account)
        = (monitor.set_high_position_alerted flag account, [])).
Proof.
  intros threshold.
  destruct (check_position_alert_cases h account) as (evs & Hrun & Hn & _).
  fold threshold in Hrun, Hn.
  eexists _, evs. split; [exact Hrun|].
  split; [rewrite Hn; destruct (_ && _); auto|].
  split; [intros Hflag; rewrite Hn, Hflag, andb_false_r; reflexivity|].
  split; [intros ->; reflexivity|].
  intros Hlow. rewrite Hlow.
  set (flag := if fgt (fabs (monitor.position account)) threshold
                  && negb (monitor.high_position_alerted account)
               then true else monitor.high_position_alerted account).
  destruct (check_position_alert_cases h'
              (monitor.set_high_position_alerted flag account))
    as (evs' & Hrun' & _ & Hnone).
  cbn [monitor.position monitor.config_ monitor.high_position_alerted
       monitor.set_high_position_alerted] in Hrun', Hnone.
  fold threshold in Hrun', Hnone.
  assert (Hquiet : fgt (fabs (monitor.position account)) threshold
                   && negb flag = false).
  { unfold flag.
    destruct (fgt (fabs (monitor.position account)) threshold);
      [|reflexivity].
    now destruct (monitor.high_position_alerted account). }
  rewrite Hquiet, Hlow in Hrun'. rewrite (Hnone Hquiet) in Hrun'.
  exact Hrun'.
Qed.

End MonitorFacts.

(* ===================================================================== *)
(** ** The further properties on the scenarios *)
(* ===================================================================== *)

Import scenario_more.

Lemma rejecting_always_fails : always_fails (client (engine rejecting)).
Proof. split; intros; reflexivity. Qed.

Lemma accepting_always_accepts : always_accepts (client (engine accepting)).
Proof. split; intros; reflexivity. Qed.

(** Both sides quoted around 50000: nothing is sent. *)
Lemma tick_idle_when_quoted_scenario :
  get_orders_to_cancel 5 20 quoted = []
  /\ snd (_tick quiet (engine accepting) (world_of quoted)) = world_of quoted
  /\ _tick quiet (engine accepting) (world_of quoted)
     = (Ok tt, world_of quoted).
Proof.
  split; [vm_compute; reflexivity|].
  destruct (tick_idle_when_quoted quiet (engine accepting) (world_of quoted)
              float_50000) as [Hsame Hok];
    try (vm_compute; reflexivity).
  split; [exact Hsame|].
  apply (Hok float_0_001). vm_compute; reflexivity.
Defined.

(** The same empty book against a healthy and against a failing exchange:
    the same two orders go out. *)
Lemma tick_calls_depend_on_state_only_scenario :
  exists r1 w1' evs1 r2 w2' evs2,
    _tick quiet (engine accepting) (world_of flat) = (r1, w1')
    /\ trace w1' = (trace (world_of flat) ++ evs1)%list
    /\ _tick unreachable (engine rejecting) (world_of flat) = (r2, w2')
    /\ trace w2' = (trace (world_of flat) ++ evs2)%list
    /\ cancelled_ids evs1 = cancelled_ids evs2
    /\ submitted evs1 = submitted evs2.
Proof.
  apply (tick_calls_depend_on_state_only quiet unreachable
           (engine accepting) (engine rejecting)
           (world_of flat) (world_of flat)); reflexivity.
Defined.

(** Two stale orders on an exchange where everything fails. *)
Lemma tick_alerts_follow_failures_scenario :
  exists r w' evs,
    _tick unreachable (engine rejecting) (world_of drifted) = (r, w')
    /\ trace w' = (trace (world_of drifted) ++ evs)%list
    /\ self_state w' = drifted
    /\ length (notifications evs)
       = (length (cancelled_ids evs) + length (submitted evs))%nat.
Proof.
  destruct (tick_alerts_follow_failures unreachable (engine rejecting)
              (world_of drifted))
    as (r & w' & evs & Hrun & Htr & _ & _ & Hfail).
  destruct (Hfail rejecting_always_fails) as [Hst Hcount].
  exists r, w', evs. auto.
Defined.

(** An empty book on a healthy exchange: quoted on both sides, no alert. *)
Lemma tick_on_healthy_exchange_scenario :
  step_of (engine accepting) flat = placing
  /\ exists r w' evs,
       _tick quiet (engine accepting) (world_of flat) = (r, w')
       /\ trace w' = (trace (world_of flat) ++ evs)%list
       /\ notifications evs = []
       /\ (r = Ok tt ->
           has_order buy (self_state w') = true
           /\ has_order sell (self_state w') = true).
Proof.
  assert (Hstep : step_of (engine accepting) flat = placing)
    by (vm_compute; reflexivity).
  split; [exact Hstep|].
  destruct (tick_on_healthy_exchange quiet (engine accepting) (world_of flat)
              accepting_always_accepts)
    as (r & w' & evs & Hrun & Htr & Hn & Hboth & _).
  exists r, w', evs. repeat (split; [assumption|]).
  intros Hr. exact (Hboth Hr Hstep).
Defined.

(** An empty book on a failing exchange: the second tick repeats the
    first. *)
Lemma tick_retries_after_failure_scenario :
  exists r1 w1 evs1 r2 w2 evs2,
    _tick unreachable (engine rejecting) (world_of flat) = (r1, w1)
    /\ trace w1 = (trace (world_of flat) ++ evs1)%list
    /\ _tick unreachable (engine rejecting) w1 = (r2, w2)
    /\ trace w2 = (trace w1 ++ evs2)%list
    /\ self_state w2 = self_state (world_of flat)
    /\ cancelled_ids evs2 = cancelled_ids evs1
    /\ submitted evs2 = submitted evs1.
Proof.
  apply (tick_retries_after_failure unreachable (engine rejecting)
           (world_of flat) rejecting_always_fails).
Defined.

(** A NaN last price on an empty book. *)
Lemma tick_raises_on_non_finite_price_scenario :
  exists e w',
    _tick quiet (engine accepting) (world_of nan_price) = (Raise e, w')
    /\ trace w' = trace (world_of nan_price)
    /\ self_state w' = self_state (world_of nan_price).
Proof.
  apply (tick_raises_on_non_finite_price quiet (engine accepting)
           (world_of nan_price) S754_nan);
    try (vm_compute; reflexivity).
  left. vm_compute; reflexivity.
Defined.

(** A sell order placed at 50050 on a healthy exchange, then cancelled. *)
Lemma client_id_round_trip_scenario :
  exists w1 evs1 o w2 evs2,
    _place_order quiet (engine accepting) sell float_50050 (world_of flat)
    = (Ok tt, w1)
    /\ trace w1 = (trace (world_of flat) ++ evs1)%list
    /\ slot (self_state w1) sell = Some o
    /\ placed_ids evs1 = [cl_ord_id o]
    /\ cancel_one quiet (engine accepting) o w1 = (Ok tt, w2)
    /\ trace w2 = (trace w1 ++ evs2)%list
    /\ cancelled_ids evs2 = placed_ids evs1
    /\ (raised (cancel_order (client (engine accepting)) (trace w1)
                  (cl_ord_id o)) = false ->
        slot (self_state w2) sell = None
        /\ (slot (self_state (world_of flat)) sell = None ->
            self_state w2 = self_state (world_of flat))).
Proof.
  apply (client_id_round_trip quiet (engine accepting) sell float_50050
           float_50050 (world_of flat)); vm_compute; reflexivity.
Defined.

(** Start-up against an exchange reporting two buys and a foreign order:
    the second buy is kept, the sell slot stays empty. *)
Lemma initialize_reconciles_scenario :
  exists w',
    initialize no_parser (engine accepting) reporting (world_of blank)
    = (Ok tt, w')
    /\ position (self_state w') = float_0_5
    /\ slot (self_state w') buy = adopted no_parser buy second_buy
    /\ slot (self_state w') sell = None.
Proof.
  eexists. split; [vm_compute; reflexivity|].
  destruct (initialize_reconciles no_parser (engine accepting) reporting
              (world_of blank) _ eq_refl)
    as (positions & orders & Hp & Ho & _ & Hpos & _ & _ & Hsl).
  vm_compute in Hp, Ho. injection Hp as <-. injection Ho as <-.
  split; [exact Hpos|].
  split; [exact (Hsl buy) | exact (Hsl sell)].
Defined.

(** Start-up with the position query down, and with the order query down. *)
Lemma initialize_failure_scenario :
  initialize no_parser (engine accepting) unreachable_api (world_of blank)
  = (Raise (Exception "TimeoutError" "timed out"), world_of blank)
  /\ exists w',
       initialize no_parser (engine accepting) half_reachable_api
         (world_of blank)
       = (Raise (Exception "TimeoutError" "timed out"), w')
       /\ position (self_state w') = float_0_5
       /\ forall sd, slot (self_state w') sd = None.
Proof.
  split.
  - apply (proj1 (proj2 (initialize_failure no_parser (engine accepting)
                           unreachable_api (world_of blank)))).
    reflexivity.
  - destruct (proj2 (proj2 (initialize_failure no_parser (engine accepting)
                              half_reachable_api (world_of blank)))
                [{| position_qty := float_0_5 |}]
                (Exception "TimeoutError" "timed out") eq_refl eq_refl)
      as (w' & Hrun & Hpos & Hsl).
    exists w'. split; [exact Hrun|]. split; [exact Hpos|].
    intros sd. rewrite (Hsl sd). now destruct sd.
Defined.

(** The configuration of the scenarios, read back field by field. *)
Lemma from_dict_loads_scenario :
  exists c,
    from_dict yaml = Ok c
    /\ yaml !! "symbol" = Some (symbol c)
    /\ rebalance_distance_bps c = VInt 20
    /\ forall c',
         from_dict (<["rebalance_distance_bps" := VNone]> yaml) = Ok c' ->
         rebalance_distance_bps c' = VNone.
Proof.
  destruct (from_dict yaml) as [c|e] eqn:Hc;
    [|vm_compute in Hc; discriminate].
  exists c. split; [reflexivity|].
  destruct (proj1 (from_dict_loads yaml c) Hc)
    as (wd & _ & _ & _ & Hsym & _ & _ & _ & _ & _ & _ & Hreb & _).
  split; [exact Hsym|].
  split; [apply Hreb; vm_compute; reflexivity|].
  intros c' Hc'.
  destruct (proj1 (from_dict_loads _ c') Hc')
    as (wd' & _ & _ & _ & _ & _ & _ & _ & _ & _ & _ & _ & Hval).
  apply Hval. vm_compute; reflexivity.
Defined.

(** The configuration of the scenarios without its third and fifth
    required fields: the error names the third. *)
Lemma from_dict_first_error_scenario :
  from_dict (delete "max_position_btc" (delete "cancel_distance_bps" yaml))
  = Raise (KeyError "cancel_distance_bps").
Proof.
  apply (proj2 (from_dict_first_error
                  (delete "max_position_btc"
                     (delete "cancel_distance_bps" yaml)))
           yaml_wallet ["symbol"; "order_distance_bps"]
           ["order_size_btc"; "max_position_btc"; "volatility_window_sec";
            "volatility_threshold_bps"] "cancel_distance_bps").
  - vm_compute; reflexivity.
  - right. eexists. vm_compute; reflexivity.
  - reflexivity.
  - intros g [<-|[<-|[]]]; eexists; vm_compute; reflexivity.
  - vm_compute; reflexivity.
Defined.

(** The three files of the scenario directory. *)
Lemma load_config_loads_scenario :
  (exists c, load_config disk "config.yaml" = Ok c)
  /\ load_config disk "missing.yaml"
     = Raise (FileNotFoundError "Config file not found: missing.yaml")
  /\ exists e, load_config disk "empty.yaml" = Raise e
               /\ exn_class e = "TypeError".
Proof.
  destruct (from_dict yaml) as [c|e] eqn:Hc;
    [|vm_compute in Hc; discriminate].
  split; [|split].
  - exists c.
    apply (proj2 (proj1 (load_config_loads disk "config.yaml") c)).
    split; [reflexivity|]. exists yaml. split; [reflexivity|exact Hc].
  - apply (proj1 (proj2 (load_config_loads disk "missing.yaml"))).
    reflexivity.
  - apply (proj2 (proj2 (load_config_loads disk "empty.yaml")) VNone);
      [reflexivity|reflexivity|discriminate].
Defined.

(** An 11% drop: one critical alert, then silence. *)
Lemma equity_alert_fires_once_scenario :
  exists account1 evs,
    monitor.check_equity_alert monitor_quiet [] account_btc = (account1, evs)
    /\ monitor.notified evs = [("alert", "critical")]
    /\ monitor.initial_equity account1 = float_of_Z 8900
    /\ monitor.check_equity_alert monitor_quiet evs account1 = (account1, []).
Proof.
  destruct (equity_alert_fires_once monitor_quiet [] 
              (snd (monitor.check_equity_alert monitor_quiet [] account_btc))
              account_btc)
    as (account1 & evs & Hrun & Hcase & _ & Hquiet).
  exists account1, evs. split; [exact Hrun|].
  rewrite Hrun in Hquiet. simpl in Hquiet.
  vm_compute in Hrun. injection Hrun as <- <-.
  split; [reflexivity|]. split; [reflexivity|]. exact Hquiet.
Defined.

(** A position of 0.5 against a threshold of 0.05: one alert, then the
    flag holds. *)
Lemma position_alert_latches_scenario :
  exists flag evs,
    monitor.check_position_alert monitor_quiet [] account_btc
    = (monitor.set_high_position_alerted flag account_btc, evs)
    /\ flag = true
    /\ monitor.notified evs = [("info", "normal")]
    /\ monitor.check_position_alert monitor_quiet evs
         (monitor.set_high_position_alerted flag account_btc)
       = (monitor.set_high_position_alerted flag account_btc, []).
Proof.
  destruct (position_alert_latches monitor_quiet []
              (snd (monitor.check_position_alert monitor_quiet []
                      account_btc))
              account_btc)
    as (flag & evs & Hrun & _ & _ & _ & Hquiet).
  exists flag, evs. split; [exact Hrun|].
  assert (Hlow : flt (fabs (monitor.position account_btc))
                   (fmul (fmul (order_size_btc (monitor.config_ account_btc))
                            monitor.POSITION_ALERT_MULTIPLIER)
                      monitor.float_0_5) = false)
    by (vm_compute; reflexivity).
  specialize (Hquiet Hlow). rewrite Hrun in Hquiet. simpl in Hquiet.
  vm_compute in Hrun. injection Hrun as Hflag <-.
  assert (flag = true) as -> by (now destruct flag).
  split; [reflexivity|]. split; [reflexivity|]. exact Hquiet.
Defined.


(** Volatility 5000 bps on an empty book at 50000: above a threshold of 5
    the tick is a no-op; at a threshold of 5000 both orders go out. *)
Lemma tick_volatility_gate_swinging :
  float_gt_int (get_volatility_bps swinging) 5 = true
  /\ float_eq_int (get_volatility_bps swinging) 5000 = true
  /\ _tick quiet (engine_with 5 accepting) (world_of swinging)
     = (Ok tt, world_of swinging)
  /\ exists r w' evs,
       _tick quiet (engine_with 5000 accepting) (world_of swinging) = (r, w')
       /\ trace w' = (trace (world_of swinging) ++ evs)%list
       /\ cancelled_ids evs = []
       /\ submitted evs = [("buy", "49950.00"); ("sell", "50050.00")].
Proof.
  split; [vm_compute; reflexivity|]. split; [vm_compute; reflexivity|].
  split.
  - apply (tick_volatility_gate quiet (engine_with 5 accepting)
             (world_of swinging) float_50000); vm_compute; reflexivity.
  - destruct (tick_volatility_gate quiet (engine_with 5000 accepting)
                (world_of swinging) float_50000 eq_refl eq_refl eq_refl)
      as [_ Hplace].
    destruct Hplace as (_ & r & w' & evs & Hrun & Htr & Hc & Hs & _);
      [right; vm_compute; reflexivity|].
    exists r, w', evs. repeat (split; [assumption|]).
    rewrite Hs. vm_compute. reflexivity.
Defined.

(** C6 as worded, in exact arithmetic, fails.  Last price 290, distance
    10 bps, tick 0.01, both slots empty: 290 × (1 − 10/10000) is 289.71, a
    multiple of the tick, so the stated buy price is 289.71; the order goes
    out at 289.70, because the float product [290 * 0.999] lies just under
    289.71 and is then rounded down.  The sell price agrees. *)
Lemma quote_prices_stated_fails_at_290 :
  let w := {| self_state :=
                {| position := S754_zero false;
                   last_price := Some (float_of_Z 290);
                   buy_order := None; sell_order := None;
                   price_history := [] |};
              trace := []; uuid_calls := 0 |} in
  let run := _place_missing_orders quiet (engine accepting) w in
  fst run = Ok tt
  /\ submitted (trace (snd run)) = [("buy", "289.70"); ("sell", "290.29")]
  /\ stated.stated_price buy (float_of_Z 290) 10 100 2 = Some "289.71"
  /\ stated.stated_price sell (float_of_Z 290) 10 100 2 = Some "290.29"
  /\ map (fun q => Some (snd q)) (submitted (trace (snd run)))
     <> [stated.stated_price buy (float_of_Z 290) 10 100 2;
         stated.stated_price sell (float_of_Z 290) 10 100 2].
Proof.
  vm_compute. repeat (split; [reflexivity|]). discriminate.
Qed.
